(** * Analyzer: formatting and debt-comparison helpers of the ticker analysis tool

    A shallow embedding of [data_fetcher.py], [exchange_mapping.py] and
    [main.py], with the properties of their specification and further
    properties of the code.

    Python values are an inductive type, Python floats are IEEE 754 binary64
    numbers ([spec_float] with 53 bits of precision), exceptions are values
    of a result type, and [print] appends to an explicit output log. *)

From Stdlib Require Import ZArith List String Ascii Bool Lia.
From Stdlib Require Import Floats.SpecFloat.
From Stdlib Require Import DecimalString.
Import ListNotations.

Open Scope string_scope.
Open Scope Z_scope.

(** ** Exceptions and results *)

(** The classes of [Exception] that the modelled operations raise; what the
    vendor client raises is [VendorError], tagged with its class name. *)
Inductive exn_class : Type :=
| ValueError
| TypeError
| OverflowError
| ZeroDivisionError
| AttributeError
| IndexError
| KeyError
| VendorError (name : string).

(** An exception instance: its class and [str(e)]. *)
Record exn : Type := mk_exn { exn_cls : exn_class; exn_msg : string }.

Inductive result (A : Type) : Type :=
| Ok (a : A)
| Raise (e : exn).

Arguments Ok {A} a.
Arguments Raise {A} e.

Definition bind {A B : Type} (r : result A) (k : A -> result B) : result B :=
  match r with
  | Ok a => k a
  | Raise e => Raise e
  end.

Notation "x <- c ;; k" := (bind c (fun x => k))
  (at level 61, c at next level, right associativity).

(** ** Floats *)

(** A Python float is a binary64 number. *)
Definition float : Type := spec_float.

Module Float64.

Definition prec : Z := 53.
Definition emax : Z := 1024.

(** The integer [z] rounded to the nearest float (ties to even);
    an infinity when it is out of range. *)
Definition of_Z (z : Z) : float := binary_normalize prec emax z 0 false.

Definition is_inf (x : float) : bool :=
  match x with S754_infinity _ => true | _ => false end.

Definition is_zero (x : float) : bool :=
  match x with S754_zero _ => true | _ => false end.

Definition leb : float -> float -> bool := SFleb.
Definition ltb : float -> float -> bool := SFltb.
Definition sub : float -> float -> float := SFsub prec emax.
Definition mul : float -> float -> float := SFmul prec emax.
Definition div : float -> float -> float := SFdiv prec emax.
Definition abs : float -> float := SFabs.

(** [x >= y] as Python evaluates it: false as soon as one side is a NaN. *)
Definition geb (x y : float) : bool := leb y x.
Definition gtb (x y : float) : bool := ltb y x.

End Float64.

(** ** Decimal text *)

Definition digit_char (d : Z) : ascii := ascii_of_nat (48 + Z.to_nat d).

Definition str_of_Z (z : Z) : string := NilEmpty.string_of_int (Z.to_int z).

(** [n / d] rounded to the nearest integer, ties to the even one
    ([0 <= n], [0 < d]). *)
Definition div_half_even (n d : Z) : Z :=
  let q := n / d in
  match (2 * (n mod d)) ?= d with
  | Lt => q
  | Gt => q + 1
  | Eq => if Z.even q then q else q + 1
  end.

(** The magnitude [m * 2^e], times [10^p], as the nearest integer. *)
Definition scaled (p : nat) (m : positive) (e : Z) : Z :=
  match e with
  | Zneg k => div_half_even (Zpos m * 10 ^ Z.of_nat p) (2 ^ Zpos k)
  | _ => Zpos m * 2 ^ e * 10 ^ Z.of_nat p
  end.

(** The last [p] decimal digits of [n], most significant first. *)
Fixpoint frac_digits (p : nat) (n : Z) : string :=
  match p with
  | O => ""
  | S p' => frac_digits p' (n / 10) ++ String (digit_char (n mod 10)) ""
  end.

(** [n] read as a number with [p] digits after the point. *)
Definition fixed_point (p : nat) (n : Z) : string :=
  str_of_Z (n / 10 ^ Z.of_nat p)
  ++ match p with O => "" | S _ => "." ++ frac_digits p n end.

Definition sign_str (s : bool) : string := if s then "-" else "".

(** [format(x, ".pf")] on a float: the exact binary value, correctly rounded
    (ties to even) to [p] decimals; the sign of a negative zero is kept. *)
Definition format_f (p : nat) (x : float) : string :=
  match x with
  | S754_nan => "nan"
  | S754_infinity s => sign_str s ++ "inf"
  | S754_zero s => sign_str s ++ fixed_point p 0
  | S754_finite s m e => sign_str s ++ fixed_point p (scaled p m e)
  end.

(** The last character of a text, and the decimal digits. *)
Fixpoint last_char (s : string) : option ascii :=
  match s with
  | EmptyString => None
  | String c EmptyString => Some c
  | String _ s' => last_char s'
  end.

Definition is_digit (c : ascii) : bool :=
  let n := nat_of_ascii c in ((48 <=? n) && (n <=? 57))%nat.

(** ** Python values *)

#[warnings="-register-all"]
Inductive pyval : Type :=
| VNone
| VBool (b : bool)
| VInt (z : Z)
| VFloat (x : float)
| VStr (s : string)
| VList (l : list pyval)
| VDict (d : list (string * pyval)).

(** A mapping with string keys, in insertion order. *)
Definition dict : Type := list (string * pyval).

Fixpoint dict_get (d : dict) (k : string) : option pyval :=
  match d with
  | [] => None
  | (k', v) :: d' => if String.eqb k' k then Some v else dict_get d' k
  end.

Definition dict_mem (d : dict) (k : string) : bool :=
  match dict_get d k with Some _ => true | None => false end.

(** [d[k] = v]: the value of an existing key is replaced where it stands, a
    new key goes last. *)
Fixpoint dict_set (d : dict) (k : string) (v : pyval) : dict :=
  match d with
  | [] => [(k, v)]
  | (k', v') :: d' =>
      if String.eqb k' k then (k', v) :: d' else (k', v') :: dict_set d' k v
  end.

Definition type_name (v : pyval) : string :=
  match v with
  | VNone => "NoneType"
  | VBool _ => "bool"
  | VInt _ => "int"
  | VFloat _ => "float"
  | VStr _ => "str"
  | VList _ => "list"
  | VDict _ => "dict"
  end.

Definition is_none (v : pyval) : bool :=
  match v with VNone => true | _ => false end.

(** Truth value testing, [bool(v)]; a NaN is true. *)
Definition py_bool (v : pyval) : bool :=
  match v with
  | VNone => false
  | VBool b => b
  | VInt z => negb (z =? 0)
  | VFloat x => negb (Float64.is_zero x)
  | VStr s => negb (String.eqb s "")
  | VList l => match l with [] => false | _ => true end
  | VDict d => match d with [] => false | _ => true end
  end.

(** [v == s] and [v != s] against a string. *)
Definition py_eq_str (v : pyval) (s : string) : bool :=
  match v with VStr s' => String.eqb s' s | _ => false end.

Definition py_ne_str (v : pyval) (s : string) : bool := negb (py_eq_str v s).

Fixpoint is_substring (p s : string) : bool :=
  prefix p s
  || match s with
     | EmptyString => false
     | String _ s' => is_substring p s'
     end.

Fixpoint repeat_string (s : string) (n : nat) : string :=
  match n with O => "" | S n' => s ++ repeat_string s n' end.

Fixpoint repeat_list {A : Type} (l : list A) (n : nat) : list A :=
  match n with O => [] | S n' => l ++ repeat_list l n' end.

Fixpoint join (sep : string) (l : list string) : string :=
  match l with
  | [] => ""
  | [s] => s
  | s :: l' => s ++ sep ++ join sep l'
  end.

(** The numbers: [bool] is a subclass of [int]. *)
Inductive number : Type :=
| NInt (z : Z)
| NFloat (x : float).

Definition as_number (v : pyval) : option number :=
  match v with
  | VBool b => Some (NInt (if b then 1 else 0))
  | VInt z => Some (NInt z)
  | VFloat x => Some (NFloat x)
  | _ => None
  end.

(** [float(z)] on an int. *)
Definition int_to_float (z : Z) : result float :=
  let x := Float64.of_Z z in
  if Float64.is_inf x
  then Raise (mk_exn OverflowError "int too large to convert to float")
  else Ok x.

Definition unsupported (op : string) (a b : pyval) : exn :=
  mk_exn TypeError
    ("unsupported operand type(s) for " ++ op ++ ": '" ++ type_name a
     ++ "' and '" ++ type_name b ++ "'").

(** [a - b]. *)
Definition py_sub (a b : pyval) : result pyval :=
  match as_number a, as_number b with
  | Some (NInt x), Some (NInt y) => Ok (VInt (x - y))
  | Some (NInt x), Some (NFloat y) =>
      x' <- int_to_float x ;; Ok (VFloat (Float64.sub x' y))
  | Some (NFloat x), Some (NInt y) =>
      y' <- int_to_float y ;; Ok (VFloat (Float64.sub x y'))
  | Some (NFloat x), Some (NFloat y) => Ok (VFloat (Float64.sub x y))
  | _, _ => Raise (unsupported "-" a b)
  end.

(** [a * n] for an int [n]: numbers multiply, strings and lists repeat. *)
Definition py_mul_int (a : pyval) (n : Z) : result pyval :=
  match a with
  | VBool b => Ok (VInt ((if b then 1 else 0) * n))
  | VInt z => Ok (VInt (z * n))
  | VFloat x => n' <- int_to_float n ;; Ok (VFloat (Float64.mul x n'))
  | VStr s => Ok (VStr (repeat_string s (Z.to_nat n)))
  | VList l => Ok (VList (repeat_list l (Z.to_nat n)))
  | VNone | VDict _ => Raise (unsupported "*" a (VInt n))
  end.

(** [x / y] on floats. *)
Definition float_truediv (x y : float) : result float :=
  if Float64.is_zero y
  then Raise (mk_exn ZeroDivisionError "float division by zero")
  else Ok (Float64.div x y).

Definition not_comparable (op : string) (a : pyval) : exn :=
  mk_exn TypeError
    ("'" ++ op ++ "' not supported between instances of '" ++ type_name a
     ++ "' and 'int'").

(** [v > 0] and [v < 0]. *)
Definition py_gt0 (v : pyval) : result bool :=
  match as_number v with
  | Some (NInt z) => Ok (0 <? z)
  | Some (NFloat x) => Ok (Float64.gtb x (S754_zero false))
  | None => Raise (not_comparable ">" v)
  end.

Definition py_lt0 (v : pyval) : result bool :=
  match as_number v with
  | Some (NInt z) => Ok (z <? 0)
  | Some (NFloat x) => Ok (Float64.ltb x (S754_zero false))
  | None => Raise (not_comparable "<" v)
  end.

(** [abs(v)]. *)
Definition py_abs (v : pyval) : result pyval :=
  match as_number v with
  | Some (NInt z) => Ok (VInt (Z.abs z))
  | Some (NFloat x) => Ok (VFloat (Float64.abs x))
  | None =>
      Raise (mk_exn TypeError
               ("bad operand type for abs(): '" ++ type_name v ++ "'"))
  end.

(** [field in data] for a string [field]: a key of a dict, a substring of a
    string, an element of a list; other values are not containers. *)
Definition py_contains (data : pyval) (field : string) : result bool :=
  match data with
  | VDict d => Ok (dict_mem d field)
  | VStr s => Ok (is_substring field s)
  | VList l => Ok (existsb (fun v => py_eq_str v field) l)
  | _ =>
      Raise (mk_exn TypeError
               ("argument of type '" ++ type_name data ++ "' is not iterable"))
  end.

(** [data.get(field, default)]: only a dict has the method. *)
Definition py_get (data : pyval) (field : string) (default : pyval)
  : result pyval :=
  match data with
  | VDict d =>
      Ok match dict_get d field with Some v => v | None => default end
  | _ =>
      Raise (mk_exn AttributeError
               ("'" ++ type_name data ++ "' object has no attribute 'get'"))
  end.

(** What the interpreter provides and the program relies on: reading a
    float from text ([float(s)], [None] where it raises [ValueError]), and
    the [repr] of floats and of strings. *)
Class PyRuntime : Type := {
  float_of_str : string -> option float;
  repr_float : float -> string;
  repr_str : string -> string
}.

Section Builtins.

Context {rt : PyRuntime}.

Fixpoint py_repr (v : pyval) : string :=
  match v with
  | VNone => "None"
  | VBool b => if b then "True" else "False"
  | VInt z => str_of_Z z
  | VFloat x => repr_float x
  | VStr s => repr_str s
  | VList l => "[" ++ join ", " (map py_repr l) ++ "]"
  | VDict d =>
      "{"
      ++ join ", " (map (fun '(k, w) => repr_str k ++ ": " ++ py_repr w) d)
      ++ "}"
  end.

(** [str(v)], which is also [format(v, "")], what an f-string field
    without a format specification produces. *)
Definition py_str (v : pyval) : string :=
  match v with
  | VStr s => s
  | _ => py_repr v
  end.

(** [float(v)]. *)
Definition py_float (v : pyval) : result float :=
  match v with
  | VBool b => Ok (Float64.of_Z (if b then 1 else 0))
  | VInt z => int_to_float z
  | VFloat x => Ok x
  | VStr s =>
      match float_of_str s with
      | Some x => Ok x
      | None =>
          Raise (mk_exn ValueError
                   ("could not convert string to float: " ++ repr_str s))
      end
  | VNone | VList _ | VDict _ =>
      Raise (mk_exn TypeError
               ("float() argument must be a string or a real number, not '"
                ++ type_name v ++ "'"))
  end.

End Builtins.

(** ** The vendor client *)

(** A financial statement as the vendor returns it: one row of cells per
    line item, labelled by the row index (labels are distinct), the period
    columns ordered most recent first. *)
Definition frame : Type := list (string * list pyval).

(** What the [financials] and [balance_sheet] attributes hold: a table, or
    (a malformed response) some other value. *)
Inductive statement : Type :=
| Frame (rows : frame)
| NotFrame (v : pyval).

(** The object [yf.Ticker(ticker)] returns; reading an attribute fetches it
    and may raise. *)
Record Stock : Type := mk_stock {
  info : result pyval;
  financials : result statement;
  balance_sheet : result statement
}.

(** [yf.Ticker]. *)
Definition Vendor : Type := string -> result Stock.

Fixpoint frame_row (rows : frame) (label : string) : option (list pyval) :=
  match rows with
  | [] => None
  | (l, cells) :: rows' =>
      if String.eqb l label then Some cells else frame_row rows' label
  end.

(** [label in st.index]. *)
Definition index_contains (st : statement) (label : string) : result bool :=
  match st with
  | Frame rows =>
      Ok match frame_row rows label with Some _ => true | None => false end
  | NotFrame (VStr _) | NotFrame (VList _) =>
      Raise (mk_exn TypeError
        "argument of type 'builtin_function_or_method' is not iterable")
  | NotFrame v =>
      Raise (mk_exn AttributeError
               ("'" ++ type_name v ++ "' object has no attribute 'index'"))
  end.

(** [st.loc[label]]. *)
Definition loc (st : statement) (label : string) : result (list pyval) :=
  match st with
  | Frame rows =>
      match frame_row rows label with
      | Some cells => Ok cells
      | None => Raise (mk_exn KeyError ("'" ++ label ++ "'"))
      end
  | NotFrame v =>
      Raise (mk_exn AttributeError
               ("'" ++ type_name v ++ "' object has no attribute 'loc'"))
  end.

(** [row.iloc[i]]. *)
Definition iloc (row : list pyval) (i : nat) : result pyval :=
  match nth_error row i with
  | Some v => Ok v
  | None =>
      Raise (mk_exn IndexError "single positional indexer is out-of-bounds")
  end.

(** ** A block of statements around one local mapping

    [fetch_debt_comparison] fills a local dict statement by statement inside
    its [try]; a block returns the dict as it stands when the block ends,
    with the value or the exception it ends on. *)

Definition block (A : Type) : Type := dict -> dict * result A.

Definition bret {A : Type} (a : A) : block A := fun d => (d, Ok a).

Definition bbind {A B : Type} (m : block A) (k : A -> block B) : block B :=
  fun d =>
    match m d with
    | (d', Ok a) => k a d'
    | (d', Raise e) => (d', Raise e)
    end.

Definition lift {A : Type} (r : result A) : block A := fun d => (d, r).

(** [debt_comparison = {}], [debt_comparison[k] = v] and reading the
    variable. *)
Definition fresh : block unit := fun _ => ([], Ok tt).
Definition assign (k : string) (v : pyval) : block unit :=
  fun d => (dict_set d k v, Ok tt).
Definition current : block dict := fun d => (d, Ok d).

Arguments bbind {A B} m k d /.
Arguments lift {A} r d /.

Notation "x <~ c ;; k" := (bbind c (fun x => k))
  (at level 61, c at next level, right associativity).
Notation "c ;;; k" := (bbind c (fun _ => k))
  (at level 61, right associativity).

(** ** data_fetcher.py *)

(** The text every missing or unreadable value is shown as. *)
Definition unavailable : string := "Dato no disponible".

Definition is_ValueError (c : exn_class) : bool :=
  match c with ValueError => true | _ => false end.

(** The lines the two [except] handlers print. *)
Definition fundamental_error_line (ticker : string) (e : exn) : string :=
  "Error al obtener datos fundamentales para " ++ ticker ++ ": " ++ exn_msg e.

Definition debt_error_line (ticker : string) (e : exn) : string :=
  "Error al obtener la comparación de deuda para " ++ ticker ++ ": "
  ++ exn_msg e.

Section DataFetcher.

Context {rt : PyRuntime}.

Definition billion : float := Float64.of_Z 1000000000.
Definition million : float := Float64.of_Z 1000000.
Definition thousand : float := Float64.of_Z 1000.

(** The branches of [format_large_numbers] once the value is a float; the
    divisors are non-zero literals, so the divisions do not raise. *)
Definition magnitude (value : float) : string :=
  if Float64.geb value billion then
    format_f 1 (Float64.div value billion) ++ "B"
  else if Float64.geb value million then
    format_f 1 (Float64.div value million) ++ "M"
  else if Float64.geb value thousand then
    format_f 1 (Float64.div value thousand) ++ "K"
  else
    format_f 2 value.

(** The [try] block of [format_large_numbers]. *)
Definition format_large_numbers_try (value : pyval) : result string :=
  value <- py_float value ;;
  Ok (magnitude value).

Definition format_large_numbers (value : pyval) : result string :=
  if is_none value then Ok unavailable
  else
    match format_large_numbers_try value with
    | Ok s => Ok s
    | Raise e =>
        if is_ValueError (exn_cls e) then Ok unavailable else Raise e
    end.

Definition calculate_debt_change_try (last_year_debt this_year_debt : pyval)
  : result string :=
  debt_change <- py_sub this_year_debt last_year_debt ;;
  increase <- py_gt0 debt_change ;;
  if increase then
    s <- format_large_numbers debt_change ;;
    Ok ("Aumento de " ++ s)
  else
    decrease <- py_lt0 debt_change ;;
    if decrease then
      a <- py_abs debt_change ;;
      s <- format_large_numbers a ;;
      Ok ("Disminución de " ++ s)
    else
      Ok "Sin cambio".

Definition calculate_debt_change (last_year_debt this_year_debt : pyval)
  : string :=
  match calculate_debt_change_try last_year_debt this_year_debt with
  | Ok s => s
  | Raise e => "Error en el cálculo: " ++ exn_msg e
  end.

Definition safe_get (data : pyval) (field : string) (default : pyval)
  : result pyval :=
  present <- py_contains data field ;;
  if present then py_get data field default else Ok default.

(** [safe_get(data, field)], with the default of the parameter. *)
Definition safe_get_default (data : pyval) (field : string) : result pyval :=
  safe_get data field (VStr unavailable).

(** The dividend yield as a percentage: the value looked up, times 100
    unless it is the default text or [None]. *)
Definition dividend_yield_percent (info : pyval) : result pyval :=
  dividend_yield <- safe_get_default info "dividendYield" ;;
  if py_ne_str dividend_yield unavailable && negb (is_none dividend_yield)
  then py_mul_int dividend_yield 100
  else Ok dividend_yield.

(** The ["Dividend Yield"] entry. *)
Definition dividend_yield_entry (dividend_yield : pyval) : pyval :=
  if py_ne_str dividend_yield unavailable
  then VStr (py_str dividend_yield ++ "%")
  else VStr unavailable.

Definition formatted (info : pyval) (field : string) : result pyval :=
  v <- safe_get_default info field ;;
  s <- format_large_numbers v ;;
  Ok (VStr s).

(** The nested debt-comparison group. *)
Definition debt_comparison_group (info : pyval) : result dict :=
  previous <- formatted info "debtToEquity" ;;
  let debt_comparison := [("Deuda Anterior", previous)] in
  total_debt <- safe_get info "totalDebt" VNone ;;
  both <- (if py_bool total_debt
           then ratio <- safe_get info "debtToEquity" VNone ;;
                Ok (py_bool ratio)
           else Ok false) ;;
  if both then
    total_debt <- safe_get info "totalDebt" (VInt 0) ;;
    total_debt <- py_float total_debt ;;
    ratio <- safe_get info "debtToEquity" (VInt 1) ;;
    ratio <- py_float ratio ;;
    quotient <- float_truediv total_debt ratio ;;
    change <- format_large_numbers (VFloat quotient) ;;
    Ok (dict_set debt_comparison "Cambio Deuda" (VStr change))
  else
    Ok debt_comparison.

Definition fetch_fundamental_data_try (yf : Vendor) (ticker : string)
  : result dict :=
  stock <- yf ticker ;;
  info <- info stock ;;
  dividend_yield <- dividend_yield_percent info ;;
  pe <- safe_get_default info "trailingPE" ;;
  pb <- safe_get_default info "priceToBook" ;;
  roe <- safe_get_default info "returnOnEquity" ;;
  debt_to_equity <- safe_get_default info "debtToEquity" ;;
  beta <- safe_get_default info "beta" ;;
  revenue_growth <- safe_get_default info "revenueGrowth" ;;
  free_cash_flow <- formatted info "freeCashflow" ;;
  total_debt <- formatted info "totalDebt" ;;
  long_term_debt <- formatted info "longTermDebt" ;;
  operating_income <- formatted info "operatingIncome" ;;
  net_income <- formatted info "netIncomeToCommon" ;;
  eps_growth <- safe_get_default info "earningsQuarterlyGrowth" ;;
  eps_growth_next <- safe_get_default info "earningsGrowth" ;;
  let fundamental_data : dict :=
    [ ("P/E Ratio", pe);
      ("P/B Ratio", pb);
      ("Dividend Yield", dividend_yield_entry dividend_yield);
      ("ROE", roe);
      ("Debt to Equity", debt_to_equity);
      ("Beta", beta);
      ("Revenue Growth", revenue_growth);
      ("Free Cash Flow", free_cash_flow);
      ("Total Debt", total_debt);
      ("Long-Term Debt", long_term_debt);
      ("Operating Income", operating_income);
      ("Net Income", net_income);
      ("EPS Growth (5Y)", eps_growth);
      ("EPS Growth (Next 5Y)", eps_growth_next) ] in
  debt_comparison <- debt_comparison_group info ;;
  Ok (dict_set fundamental_data "Debt Comparison" (VDict debt_comparison)).

(** The text printed and the mapping returned. *)
Definition fetch_fundamental_data (yf : Vendor) (ticker : string)
  : list string * dict :=
  match fetch_fundamental_data_try yf ticker with
  | Ok fundamental_data => ([], fundamental_data)
  | Raise e => ([fundamental_error_line ticker e], [])
  end.

(** [st.loc[label] if label in st.index else None]. *)
Definition line_item (st : statement) (label : string)
  : result (option (list pyval)) :=
  present <- index_contains st label ;;
  if present then row <- loc st label ;; Ok (Some row) else Ok None.

(** [row.iloc[i] if row is not None else None]. *)
Definition period (row : option (list pyval)) (i : nat) : result pyval :=
  match row with
  | Some cells => iloc cells i
  | None => Ok VNone
  end.

Definition fetch_debt_comparison_try (yf : Vendor) (ticker : string)
  : block dict :=
  stock <~ lift (yf ticker) ;;
  financials <~ lift (financials stock) ;;
  balance_sheet <~ lift (balance_sheet stock) ;;
  total_debt <~ lift (line_item balance_sheet "Total Debt") ;;
  long_term_debt <~ lift (line_item balance_sheet "Long Term Debt") ;;
  debt_last_year <~ lift (period total_debt 1) ;;
  debt_this_year <~ lift (period total_debt 0) ;;
  long_term_debt_last_year <~ lift (period long_term_debt 1) ;;
  long_term_debt_this_year <~ lift (period long_term_debt 0) ;;
  fresh ;;;
  (if py_bool debt_last_year && py_bool debt_this_year then
     s <~ lift (format_large_numbers debt_last_year) ;;
     assign "Total Debt Last Year" (VStr s) ;;;
     s <~ lift (format_large_numbers debt_this_year) ;;
     assign "Total Debt This Year" (VStr s) ;;;
     assign "Debt Change"
       (VStr (calculate_debt_change debt_last_year debt_this_year))
   else bret tt) ;;;
  (if py_bool long_term_debt_last_year && py_bool long_term_debt_this_year
   then
     s <~ lift (format_large_numbers long_term_debt_last_year) ;;
     assign "Long Term Debt Last Year" (VStr s) ;;;
     s <~ lift (format_large_numbers long_term_debt_this_year) ;;
     assign "Long Term Debt This Year" (VStr s) ;;;
     assign "Long Term Debt Change"
       (VStr (calculate_debt_change long_term_debt_last_year
                long_term_debt_this_year))
   else bret tt) ;;;
  current.

(** The text printed and the mapping returned: the handler returns a new
    empty dict, whatever the block had filled in. *)
Definition fetch_debt_comparison (yf : Vendor) (ticker : string)
  : list string * dict :=
  match fetch_debt_comparison_try yf ticker [] with
  | (_, Ok debt_comparison) => ([], debt_comparison)
  | (_, Raise e) => ([debt_error_line ticker e], [])
  end.

End DataFetcher.

(** ** A runtime to evaluate with

    [float(s)] and [repr] as CPython computes them, on text in ASCII (the
    bytes of other characters are never digits or blanks here, and are
    printed as they are). *)

Module CPython.

(** *** Decimal text to the nearest float *)

(** [(-1)^s * m * 10^e], correctly rounded.  A magnitude beyond the range
    of floats on either side is settled from the size of [m], without
    computing the power. *)
Definition decimal_to_float (s : bool) (m : Z) (e : Z) : float :=
  match m with
  | Zpos p =>
      let bits := Z.log2 m in
      if 310 <=? bits * 30102 / 100000 + e then S754_infinity s
      else if (bits + 1) * 30103 / 100000 + 1 + e <? -326 then S754_zero s
      else
        match e with
        | Zneg k =>
            SFdiv Float64.prec Float64.emax
              (S754_finite s p 0)
              (S754_finite false (Z.to_pos (10 ^ Zpos k)) 0)
        | _ =>
            binary_normalize Float64.prec Float64.emax
              (if s then - (m * 10 ^ e) else m * 10 ^ e) 0 s
        end
  | _ => S754_zero s
  end.

Definition is_space (c : ascii) : bool :=
  let n := nat_of_ascii c in
  ((9 <=? n) && (n <=? 13) || (n =? 32))%nat.

Definition digit_value (c : ascii) : option Z :=
  let n := nat_of_ascii c in
  if ((48 <=? n) && (n <=? 57))%nat then Some (Z.of_nat (n - 48)) else None.

Definition lower (c : ascii) : ascii :=
  let n := nat_of_ascii c in
  if ((65 <=? n) && (n <=? 90))%nat then ascii_of_nat (n + 32) else c.

Fixpoint lower_string (s : string) : string :=
  match s with
  | EmptyString => EmptyString
  | String c s' => String (lower c) (lower_string s')
  end.

Fixpoint lstrip (s : string) : string :=
  match s with
  | String c s' => if is_space c then lstrip s' else s
  | EmptyString => EmptyString
  end.

Fixpoint rev_string (acc s : string) : string :=
  match s with
  | EmptyString => acc
  | String c s' => rev_string (String c acc) s'
  end.

Definition strip (s : string) : string :=
  rev_string "" (lstrip (rev_string "" (lstrip s))).

(** A run of digits under way: the value and the count of the digits
    read, and the text left; an underscore is read only between two
    digits. *)
Record run : Type := mk_run { run_value : Z; run_count : Z; run_rest : string }.

Fixpoint more_digits (value count : Z) (s : string) : run :=
  match s with
  | String c s' =>
      match digit_value c with
      | Some d => more_digits (value * 10 + d) (count + 1) s'
      | None =>
          if Ascii.eqb c "_" then
            match s' with
            | String c' s'' =>
                match digit_value c' with
                | Some d => more_digits (value * 10 + d) (count + 1) s''
                | None => mk_run value count s
                end
            | EmptyString => mk_run value count s
            end
          else mk_run value count s
      end
  | EmptyString => mk_run value count s
  end.

(** A digit part continuing the digits read so far: at least one digit. *)
Definition digit_part (value count : Z) (s : string) : option run :=
  match s with
  | String c s' =>
      match digit_value c with
      | Some d => Some (more_digits (value * 10 + d) (count + 1) s')
      | None => None
      end
  | EmptyString => None
  end.

Definition sign_of (s : string) : bool * string :=
  match s with
  | String "-" s' => (true, s')
  | String "+" s' => (false, s')
  | _ => (false, s)
  end.

(** The exponent part, if any, and the end of the text. *)
Definition exponent (s : string) : option Z :=
  match s with
  | EmptyString => Some 0
  | String c s' =>
      if Ascii.eqb (lower c) "e" then
        let '(neg, s'') := sign_of s' in
        match digit_part 0 0 s'' with
        | Some (mk_run v _ EmptyString) => Some (if neg then - v else v)
        | _ => None
        end
      else None
  end.

(** The digits of the number: the mantissa as an integer with the count
    of its digits, the count of digits after the point, and what
    follows. *)
Definition mantissa (s : string) : option (run * Z) :=
  match s with
  | String "." s' =>
      match digit_part 0 0 s' with
      | Some r => Some (r, run_count r)
      | None => None
      end
  | _ =>
      match digit_part 0 0 s with
      | Some (mk_run v n (String "." s')) =>
          match digit_part v n s' with
          | Some r => Some (r, run_count r - n)
          | None => Some (mk_run v n s', 0)
          end
      | Some r => Some (r, 0)
      | None => None
      end
  end.

Definition float_of_str (text : string) : option float :=
  let '(neg, s) := sign_of (strip text) in
  let word := lower_string s in
  if String.eqb word "inf" || String.eqb word "infinity"
  then Some (S754_infinity neg)
  else if String.eqb word "nan" then Some S754_nan
  else
    match mantissa s with
    | Some (mk_run m _ rest, fraction) =>
        match exponent rest with
        | Some e => Some (decimal_to_float neg m (e - fraction))
        | None => None
        end
    | None => None
    end.

(** *** The shortest text that reads back as the float *)

(** [10^k <= num / den], for positive [num] and [den]. *)
Definition pow10_le (k num den : Z) : bool :=
  match k with
  | Zneg j => den <=? num * 10 ^ Zpos j
  | _ => 10 ^ k * den <=? num
  end.

(** The [k] with [10^k <= num / den < 10^(k+1)], sought around the
    estimate the bit lengths give. *)
Definition decimal_exponent (num den : Z) : Z :=
  let guess := (Z.log2 num - Z.log2 den) * 30103 / 100000 in
  match
    find (fun k => pow10_le k num den)
         [guess + 2; guess + 1; guess; guess - 1; guess - 2]
  with
  | Some k => k
  | None => guess
  end.

(** [num / den / 10^scale] as a quotient and whether the remainder is
    under, at or over one half. *)
Definition scaled_quotient (num den scale : Z) : Z * comparison :=
  let '(n, d) :=
    match scale with
    | Zneg j => (num * 10 ^ Zpos j, den)
    | _ => (num, den * 10 ^ scale)
    end in
  (n / d, (2 * (n mod d)) ?= d).

(** The decimals of [digits] significant digits next to [num / den],
    below and above, the nearer first; on a tie the even one first. *)
Definition neighbours (num den k : Z) (digits : nat) : list (Z * Z) :=
  let scale := k - Z.of_nat digits + 1 in
  let '(q, half) := scaled_quotient num den scale in
  match half with
  | Lt => [(q, scale); (q + 1, scale)]
  | Gt => [(q + 1, scale); (q, scale)]
  | Eq => if Z.even q then [(q, scale); (q + 1, scale)]
          else [(q + 1, scale); (q, scale)]
  end.

(** The shortest decimal [c * 10^scale] that reads back as [x], looking
    at [upto - fuel] significant digits and more. *)
Fixpoint shortest (x : float) (num den k : Z) (upto fuel : nat) : Z * Z :=
  let candidates := neighbours num den k (upto - fuel) in
  match
    find (fun '(c, scale) =>
            match SFcompare (decimal_to_float false c scale) x with
            | Some Eq => true
            | _ => false
            end)
         candidates
  with
  | Some found => found
  | None =>
      match fuel with
      | O => hd (0, 0) candidates
      | S fuel' => shortest x num den k upto fuel'
      end
  end.

Fixpoint strip_zeros_rev (s : string) : string :=
  match s with
  | String "0" (String c s' as rest) => strip_zeros_rev rest
  | _ => s
  end.

(** The text without its trailing zeros (one digit is kept). *)
Definition strip_trailing_zeros (s : string) : string :=
  rev_string "" (strip_zeros_rev (rev_string "" s)).

Definition zeros (n : Z) : string := repeat_string "0" (Z.to_nat n).

(** The digits [ds] with the decimal point [point] places from their
    start, as [repr] lays them out. *)
Definition layout (ds : string) (point : Z) : string :=
  let n := Z.of_nat (String.length ds) in
  if (point <=? -4) || (16 <? point) then
    let e := point - 1 in
    let shown := str_of_Z (Z.abs e) in
    substring 0 1 ds
    ++ (if 1 <? n then "." ++ substring 1 (String.length ds - 1) ds else "")
    ++ "e" ++ (if e <? 0 then "-" else "+")
    ++ (if Z.abs e <? 10 then "0" else "") ++ shown
  else if point <=? 0 then "0." ++ zeros (- point) ++ ds
  else if point <? n then
    substring 0 (Z.to_nat point) ds ++ "."
    ++ substring (Z.to_nat point) (String.length ds - Z.to_nat point) ds
  else ds ++ zeros (point - n) ++ ".0".

Definition repr_float (x : float) : string :=
  match x with
  | S754_nan => "nan"
  | S754_infinity s => sign_str s ++ "inf"
  | S754_zero s => sign_str s ++ "0.0"
  | S754_finite s m e =>
      let '(num, den) :=
        match e with
        | Zneg j => (Zpos m, 2 ^ Zpos j)
        | _ => (Zpos m * 2 ^ e, 1)
        end in
      let k := decimal_exponent num den in
      let '(c, scale) :=
        shortest (S754_finite false m e) num den k 17 16 in
      let all := str_of_Z c in
      sign_str s
      ++ layout (strip_trailing_zeros all)
           (scale + Z.of_nat (String.length all))
  end.

(** *** The repr of a string *)

Definition quote : ascii := ascii_of_nat 39.
Definition double_quote : ascii := ascii_of_nat 34.
Definition backslash : ascii := ascii_of_nat 92.

Definition hex_digit (n : nat) : ascii :=
  if (n <? 10)%nat then ascii_of_nat (48 + n) else ascii_of_nat (87 + n).

Definition escape (q c : ascii) : string :=
  let n := nat_of_ascii c in
  if Ascii.eqb c q || Ascii.eqb c backslash then String backslash (String c "")
  else if (n =? 9)%nat then String backslash "t"
  else if (n =? 10)%nat then String backslash "n"
  else if (n =? 13)%nat then String backslash "r"
  else if ((n <? 32) || (n =? 127))%nat then
    String backslash
      (String "x" (String (hex_digit (n / 16)) (String (hex_digit (n mod 16)) "")))
  else String c "".

Fixpoint escape_all (q : ascii) (s : string) : string :=
  match s with
  | EmptyString => EmptyString
  | String c s' => escape q c ++ escape_all q s'
  end.

Fixpoint has_char (c : ascii) (s : string) : bool :=
  match s with
  | EmptyString => false
  | String c' s' => Ascii.eqb c c' || has_char c s'
  end.

Definition repr_str (s : string) : string :=
  let q :=
    if has_char quote s && negb (has_char double_quote s)
    then double_quote else quote in
  String q (escape_all q s ++ String q "").

End CPython.

#[export] Instance cpython : PyRuntime := {
  float_of_str := CPython.float_of_str;
  repr_float := CPython.repr_float;
  repr_str := CPython.repr_str
}.

(** ** exchange_mapping.py and the lookup of main.py *)

Definition EXCHANGE_MAPPING : list (string * string) :=
  [ ("NMS", "NASDAQ");
    ("NYQ", "NYSE");
    ("ASE", "AMEX");
    ("MCE", "Mercado continuo");
    ("TOR", "Toronto Stock Exchange");
    ("LSE", "London Stock Exchange");
    ("JPX", "Tokyo Stock Exchange");
    ("OTC", "Over the Counter") ].

Fixpoint mapping_get (m : list (string * string)) (key default : string)
  : string :=
  match m with
  | [] => default
  | (k, v) :: m' => if String.eqb k key then v else mapping_get m' key default
  end.

(** [EXCHANGE_MAPPING.get(market_code, market_code)]. *)
Definition market_name (market_code : string) : string :=
  mapping_get EXCHANGE_MAPPING market_code market_code.

(** * What the specification speaks of *)

(** What [calculate_debt_change] returns once the direction is known: the
    label before the formatted amount, or the text of the handler when
    formatting the amount raises. *)
Definition described (label : string) (amount : result string) : string :=
  match amount with
  | Ok s => label ++ s
  | Raise e => "Error en el cálculo: " ++ exn_msg e
  end.

(** The fields of the vendor info that [fetch_fundamental_data] looks up. *)
Definition looked_up_fields : list string :=
  [ "dividendYield"; "trailingPE"; "priceToBook"; "returnOnEquity";
    "debtToEquity"; "beta"; "revenueGrowth"; "freeCashflow"; "totalDebt";
    "longTermDebt"; "operatingIncome"; "netIncomeToCommon";
    "earningsQuarterlyGrowth"; "earningsGrowth" ].

(** The labels of the metrics in the mapping returned. *)
Definition metric_labels : list string :=
  [ "P/E Ratio"; "P/B Ratio"; "Dividend Yield"; "ROE"; "Debt to Equity";
    "Beta"; "Revenue Growth"; "Free Cash Flow"; "Total Debt";
    "Long-Term Debt"; "Operating Income"; "Net Income"; "EPS Growth (5Y)";
    "EPS Growth (Next 5Y)" ].

(** A period value is present when it is neither null nor zero. *)
Definition is_zero_number (v : pyval) : bool :=
  match as_number v with
  | Some (NInt z) => z =? 0
  | Some (NFloat x) => Float64.is_zero x
  | None => false
  end.

Definition present (v : pyval) : bool :=
  negb (is_none v) && negb (is_zero_number v).



Section Entries.

Context {rt : PyRuntime}.



End Entries.

(** ** Vendors and statements to evaluate with *)

(** The vendor is unreachable. *)
Definition failing_vendor : Vendor :=
  fun _ => Raise (mk_exn (VendorError "HTTPError") "404 Client Error").

(** The vendor returns these values. *)
Definition vendor_of (info : pyval) (balance_sheet : statement) : Vendor :=
  fun _ => Ok (mk_stock (Ok info) (Ok (Frame [])) (Ok balance_sheet)).

(** A statement with two periods of both debt lines. *)
Definition two_period_sheet : statement :=
  Frame [ ("Total Debt",
           [VFloat (Float64.of_Z 3500000000); VFloat (Float64.of_Z 1000000000)]);
          ("Long Term Debt",
           [VFloat (Float64.of_Z 800000); VFloat (Float64.of_Z 950000)]) ].

(** A statement whose second line holds a list where a number is expected. *)
Definition malformed_sheet : statement :=
  Frame [ ("Total Debt",
           [VFloat (Float64.of_Z 3500000000); VFloat (Float64.of_Z 1000000000)]);
          ("Long Term Debt",
           [VList [VInt 1]; VFloat (Float64.of_Z 950000)]) ].

(** * The ticker data and the command line *)

(** ** fetch_ticker_data *)

(** The object [yf.Ticker(ticker)] returns, with its [history] method: the
    historical prices over a period, a table (or, malformed, another
    value). *)
Record Ticker : Type := mk_ticker {
  ticker_stock : Stock;
  history : string -> result statement
}.

(** [yf.Ticker], for the callers that read the history. *)
Definition Yahoo : Type := string -> result Ticker.

(** The same vendor, for the callers that read the attributes only. *)
Definition vendor (yf : Yahoo) : Vendor :=
  fun ticker => t <- yf ticker ;; Ok (ticker_stock t).

Definition ticker_error_line (ticker : string) (e : exn) : string :=
  "Error al obtener datos para " ++ ticker ++ ": " ++ exn_msg e.

(** [None], as the value of a variable that holds a table otherwise. *)
Definition no_data : statement := NotFrame VNone.

Definition fetch_ticker_data_try (yf : Yahoo) (ticker period : string)
  : result (statement * pyval) :=
  stock <- yf ticker ;;
  data <- history stock period ;;
  info <- info (ticker_stock stock) ;;
  Ok (data, info).

(** The text printed and the pair returned. *)
Definition fetch_ticker_data (yf : Yahoo) (ticker period : string)
  : list string * (statement * pyval) :=
  match fetch_ticker_data_try yf ticker period with
  | Ok (data, info) => ([], (data, info))
  | Raise e => ([ticker_error_line ticker e], (no_data, VNone))
  end.

(** ** main.py *)

(** What [main] takes from its host: [str.strip] and [str.upper] on the
    lines typed, and the text [print] shows for a table. *)
Class Host : Type := {
  str_strip : string -> string;
  str_upper : string -> string;
  frame_text : frame -> string
}.

(** A run of [main]: the texts written to the standard output so far, in
    order (one per [print], one per prompt), and the value or the uncaught
    exception the run ends on. *)
Definition run (A : Type) : Type := list string * result A.

Definition rret {A : Type} (a : A) : run A := ([], Ok a).

Definition rbind {A B : Type} (m : run A) (k : A -> run B) : run B :=
  match m with
  | (out, Ok a) => let '(out', r) := k a in ((out ++ out')%list, r)
  | (out, Raise e) => (out, Raise e)
  end.

(** [print(text)] and the prompt of [input(text)]. *)
Definition say (text : string) : run unit := ([text], Ok tt).

(** A call that prints and returns, and an expression that may raise. *)
Definition call {A : Type} (r : list string * A) : run A := (fst r, Ok (snd r)).
Definition eval {A : Type} (r : result A) : run A := ([], r).

Notation "x <== c ;; k" := (rbind c (fun x => k))
  (at level 61, c at next level, right associativity).
Notation "c ;;> k" := (rbind c (fun _ => k))
  (at level 61, right associativity).

Definition newline : string := String (ascii_of_nat 10) "".

(** [EXCHANGE_MAPPING.get(market_code, market_code)] on any value: a key
    is hashed first, and only a string equals a key of the table. *)
Definition exchange_get (market_code : pyval) : result pyval :=
  match market_code with
  | VStr code => Ok (VStr (market_name code))
  | VList _ | VDict _ =>
      Raise (mk_exn TypeError
               ("unhashable type: '" ++ type_name market_code ++ "'"))
  | _ => Ok market_code
  end.

(** [data is not None]. *)
Definition is_data (data : statement) : bool :=
  match data with
  | NotFrame VNone => false
  | _ => true
  end.

(** [data.tail()]: the last five rows. *)
Definition tail (data : statement) : result frame :=
  match data with
  | Frame rows => Ok (skipn (List.length rows - 5) rows)
  | NotFrame v =>
      Raise (mk_exn AttributeError
               ("'" ++ type_name v ++ "' object has no attribute 'tail'"))
  end.

Section Main.

Context {rt : PyRuntime} {host : Host}.

(** [print(f"{label}{info.get(field, 'N/D')}")]. *)
Definition print_field (label : string) (info : pyval) (field : string)
  : run unit :=
  v <== eval (py_get info field (VStr "N/D")) ;;
  say (label ++ py_str v).

(** [for key, value in items.items(): print(f"{key}: {value}")]. *)
Definition item_lines (items : dict) : list string :=
  map (fun '(key, value) => key ++ ": " ++ py_str value) items.

Definition print_items (items : dict) : run unit := (item_lines items, Ok tt).

(** The report on a ticker that has data. *)
Definition report (yf : Yahoo) (ticker : string) (data : statement)
  (info : pyval) : run unit :=
  market_code <== eval (py_get info "exchange" (VStr "N/D")) ;;
  market_name <== eval (exchange_get market_code) ;;
  say (newline ++ "=== Información del Ticker ===") ;;>
  print_field "Símbolo: $" info "symbol" ;;>
  print_field "Nombre: " info "longName" ;;>
  say ("Mercado: " ++ py_str market_name) ;;>
  print_field "Sector: " info "sector" ;;>
  print_field "Industria: " info "industry" ;;>
  print_field "País: " info "country" ;;>
  print_field "Divisa: " info "currency" ;;>
  say (newline ++ "=== Últimos Datos Históricos ===") ;;>
  last_rows <== eval (tail data) ;;
  say (frame_text last_rows) ;;>
  say (newline ++ "=== Análisis Fundamental ===") ;;>
  fundamental_data <== call (fetch_fundamental_data (vendor yf) ticker) ;;
  print_items fundamental_data ;;>
  say (newline ++ "=== Comparación de Deuda ===") ;;>
  debt_comparison <== call (fetch_debt_comparison (vendor yf) ticker) ;;
  match debt_comparison with
  | [] => rret tt
  | _ => print_items debt_comparison
  end.

Definition not_found : string :=
  "No se pudieron obtener datos para el ticker especificado. "
  ++ "Verifica el símbolo e intenta de nuevo.".

(** [main], on the two lines the user types at the prompts. *)
Definition main (typed_ticker typed_period : string) (yf : Yahoo)
  : run unit :=
  say "=== Análisis de Tickers ===" ;;>
  say "Introduce el ticker de la empresa (e.g., AAPL): " ;;>
  let ticker := str_upper (str_strip typed_ticker) in
  say "Introduce el periodo de análisis (por defecto: 1y): " ;;>
  let period :=
    if String.eqb (str_strip typed_period) "" then "1y"
    else str_strip typed_period in
  say ("Obteniendo datos para " ++ ticker ++ "...") ;;>
  fetched <== call (fetch_ticker_data yf ticker period) ;;
  let '(data, info) := fetched in
  if is_data data && negb (is_none info) then report yf ticker data info
  else say not_found.

End Main.

(** ** A host to evaluate with: text in ASCII, a table shown one row a
    line. *)

Module AsciiHost.

Definition is_space (c : ascii) : bool :=
  let n := nat_of_ascii c in
  ((9 <=? n) && (n <=? 13) || (28 <=? n) && (n <=? 32))%nat.

Fixpoint lstrip (s : string) : string :=
  match s with
  | String c s' => if is_space c then lstrip s' else s
  | EmptyString => EmptyString
  end.

Definition strip (s : string) : string :=
  CPython.rev_string "" (lstrip (CPython.rev_string "" (lstrip s))).

Definition upper_char (c : ascii) : ascii :=
  let n := nat_of_ascii c in
  if ((97 <=? n) && (n <=? 122))%nat then ascii_of_nat (n - 32) else c.

Fixpoint upper (s : string) : string :=
  match s with
  | EmptyString => EmptyString
  | String c s' => String (upper_char c) (upper s')
  end.

End AsciiHost.

(** A row as its label and its cells, a table as its rows, one a line. *)
Definition row_text {rt : PyRuntime} (row : string * list pyval) : string :=
  join " " (fst row :: map py_str (snd row)).

#[export] Instance ascii_host {rt : PyRuntime} : Host := {
  str_strip := AsciiHost.strip;
  str_upper := AsciiHost.upper;
  frame_text := fun rows => join newline (map row_text rows)
}.

(** * What the further properties speak of *)

(** Text in ASCII. *)
Definition is_ascii (c : ascii) : bool := (nat_of_ascii c <? 128)%nat.

Fixpoint ascii_text (s : string) : bool :=
  match s with
  | EmptyString => true
  | String c s' => is_ascii c && ascii_text s'
  end.

(** Text of blanks only. *)
Fixpoint blank (s : string) : bool :=
  match s with
  | EmptyString => true
  | String c s' => AsciiHost.is_space c && blank s'
  end.

(** The ints from 999950 to 999999. *)
Definition top_of_thousands : list Z :=
  map (fun k => 999950 + Z.of_nat k) (seq 0 50).

(** The fields of the vendor info that [fetch_fundamental_data] passes to
    [format_large_numbers]. *)
Definition formatted_fields : list string :=
  [ "freeCashflow"; "totalDebt"; "longTermDebt"; "operatingIncome";
    "netIncomeToCommon"; "debtToEquity" ].

(** The labels of the metrics that are always texts. *)
Definition text_labels : list string :=
  [ "Dividend Yield"; "Free Cash Flow"; "Total Debt"; "Long-Term Debt";
    "Operating Income"; "Net Income" ].

Definition is_text (v : pyval) : bool :=
  match v with VStr _ => true | _ => false end.

(** The keys [fetch_debt_comparison] assigns for each line item. *)
Definition total_debt_keys : list string :=
  [ "Total Debt Last Year"; "Total Debt This Year"; "Debt Change" ].

Definition long_term_debt_keys : list string :=
  [ "Long Term Debt Last Year"; "Long Term Debt This Year";
    "Long Term Debt Change" ].

(** The same stock with another income statement. *)
Definition with_financials (stock : Stock) (st : result statement) : Stock :=
  mk_stock (info stock) st (balance_sheet stock).

(** The ticker and the period that [main] makes of the two lines typed. *)
Definition ticker_of {host : Host} (typed_ticker : string) : string :=
  str_upper (str_strip typed_ticker).

Definition period_of {host : Host} (typed_period : string) : string :=
  if String.eqb (str_strip typed_period) "" then "1y"
  else str_strip typed_period.

(** The banner, the two prompts and the line before the data are fetched. *)
Definition opening (ticker : string) : list string :=
  [ "=== Análisis de Tickers ===";
    "Introduce el ticker de la empresa (e.g., AAPL): ";
    "Introduce el periodo de análisis (por defecto: 1y): ";
    "Obteniendo datos para " ++ ticker ++ "..." ].





(** ** More vendor answers to evaluate with *)

(** The stock [vendor_of] returns. *)
Definition stock_of (info : pyval) (balance_sheet : statement) : Stock :=
  mk_stock (Ok info) (Ok (Frame [])) (Ok balance_sheet).

(** A total debt of 120 billions and a debt-to-equity ratio of 150. *)
Definition indebted_info : dict :=
  [ ("totalDebt", VInt 120000000000); ("debtToEquity", VInt 150) ].

(** A price-earnings ratio, and a list where the operating income is
    expected. *)
Definition malformed_info : dict :=
  [ ("trailingPE", VInt 12); ("operatingIncome", VList [VInt 1]) ].

(** A dividend yield of 0.07, the float nearest to 7/100. *)
Definition yielding_info : dict :=
  [ ("dividendYield",
     VFloat (Float64.div (Float64.of_Z 7) (Float64.of_Z 100))) ].

(** The vendor answers every ticker and period with these prices, this
    info and this balance sheet. *)
Definition yahoo_of (prices : statement) (info : pyval)
  (balance_sheet : statement) : Yahoo :=
  fun _ => Ok (mk_ticker (stock_of info balance_sheet) (fun _ => Ok prices)).

(** The vendor does not know the ticker. *)
Definition failing_yahoo : Yahoo :=
  fun _ => Raise (mk_exn (VendorError "HTTPError") "404 Client Error").

(** Three days of closing prices. *)
Definition three_days : statement :=
  Frame [ ("2024-01-02", [VInt 101]); ("2024-01-03", [VInt 103]);
          ("2024-01-04", [VInt 102]) ].

(** An info that names the company and its exchange. *)
Definition acme_info : dict :=
  [ ("symbol", VStr "ACME"); ("longName", VStr "Acme Corp.");
    ("exchange", VStr "NMS"); ("currency", VStr "USD") ].

(** Three days of prices, this info and a balance sheet with two
    periods. *)
Definition acme_yahoo : Yahoo :=
  yahoo_of three_days (VDict acme_info) two_period_sheet.

(** * Properties *)

(** ** The runtime on examples *)

Example cpython_reads_floats :
  float_of_str " 2.5e3 " = Some (Float64.of_Z 2500)
  /\ float_of_str "1_000" = Some (Float64.of_Z 1000)
  /\ float_of_str "-inf" = Some (S754_infinity true)
  /\ float_of_str "1e400" = Some (S754_infinity false)
  /\ float_of_str "12abc" = None
  /\ float_of_str "" = None
  /\ float_of_str unavailable = None.
Proof. repeat split; vm_compute; reflexivity. Qed.

Example cpython_shows_values :
  py_str (VFloat (Float64.div (Float64.of_Z 1) (Float64.of_Z 10))) = "0.1"
  /\ py_str (VFloat (Float64.mul
                       (Float64.div (Float64.of_Z 123) (Float64.of_Z 10000))
                       (Float64.of_Z 100)))
     = "1.23"
  /\ py_str (VFloat (Float64.of_Z (10 ^ 16))) = "1e+16"
  /\ py_str (VList [VStr "a"; VNone; VBool true; VInt (-3)])
     = "['a', None, True, -3]"
  /\ format_f 2 (Float64.div (Float64.of_Z 2675) (Float64.of_Z 1000)) = "2.67"
  /\ format_f 1 (Float64.div (Float64.of_Z 25) (Float64.of_Z 100)) = "0.2"
  /\ format_f 2 (S754_zero true) = "-0.00".
Proof. repeat split; vm_compute; reflexivity. Qed.

(** ** The order of floats *)

Lemma SFcompare_antisym (x y : float) :
  SFcompare y x = option_map CompOpp (SFcompare x y).
Proof.
  destruct x as [sx | sx | | sx mx ex], y as [sy | sy | | sy my ey];
    simpl; try reflexivity;
    try (destruct sx; reflexivity);
    try (destruct sy; reflexivity);
    try (destruct sx, sy; reflexivity).
  destruct sx, sy; simpl; try reflexivity;
    rewrite (Z.compare_antisym ex ey);
    destruct (ex ?= ey); simpl; try reflexivity;
    rewrite (Pos.compare_cont_antisym mx my Eq); reflexivity.
Qed.

(** [x < y] excludes [x >= y]. *)
Lemma ltb_not_geb (x y : float) :
  Float64.ltb x y = true -> Float64.geb x y = false.
Proof.
  unfold Float64.ltb, Float64.geb, Float64.leb, SFltb, SFleb.
  rewrite (SFcompare_antisym x y).
  destruct (SFcompare x y) as [[ | | ] | ]; simpl; congruence.
Qed.

(** What is below zero is a negative number or the negative infinity. *)
Lemma negative_inv (v : float) :
  Float64.ltb v (S754_zero false) = true ->
  v = S754_infinity true \/ exists m e, v = S754_finite true m e.
Proof.
  destruct v as [s | [ | ] | | [ | ] m e]; simpl;
    try discriminate; eauto.
Qed.

Lemma billion_eq : billion = S754_finite false 8388608000000000 (-23).
Proof. reflexivity. Qed.

Lemma million_eq : million = S754_finite false 8589934592000000 (-33).
Proof. reflexivity. Qed.

Lemma thousand_eq : thousand = S754_finite false 8796093022208000 (-43).
Proof. reflexivity. Qed.

(** Comparison with a positive number [m * 2^e]. *)
Lemma geb_positive (v : float) (m : positive) (e : Z) :
  Float64.geb v (S754_finite false m e) = true ->
  v = S754_infinity false
  \/ exists m' e', v = S754_finite false m' e'
       /\ (e < e' \/ e = e' /\ (m <= m')%positive).
Proof.
  unfold Float64.geb, Float64.leb, SFleb.
  destruct v as [s | [ | ] | | [ | ] m' e']; simpl; try discriminate; auto.
  intros H. right. exists m', e'. split; [reflexivity | ].
  destruct (Z.compare_spec e e') as [Heq | Hlt | Hgt]; try discriminate.
  - right. split; [assumption | ].
    rewrite Pos.compare_cont_spec in H. simpl in H.
    destruct (Pos.compare_spec m m') as [H1 | H1 | H1]; try discriminate.
    + subst; apply Pos.le_refl.
    + apply Pos.lt_le_incl; assumption.
  - left; assumption.
Qed.

(** The converse, for the comparison to compute. *)
Lemma positive_geb (m m' : positive) (e e' : Z) :
  e < e' \/ e = e' /\ (m <= m')%positive ->
  Float64.geb (S754_finite false m' e') (S754_finite false m e) = true.
Proof.
  unfold Float64.geb, Float64.leb, SFleb. simpl.
  intros [Hlt | [Heq Hle]].
  - apply Z.compare_lt_iff in Hlt. rewrite Hlt. reflexivity.
  - subst. rewrite Z.compare_refl, Pos.compare_cont_spec. simpl.
    destruct (Pos.compare_spec m m') as [H1 | H1 | H1]; try reflexivity.
    apply Pos.lt_nle in H1. contradiction.
Qed.

(** The thresholds are nested: a value at or over one is over the lower
    ones. *)
Lemma geb_billion_million (v : float) :
  Float64.geb v billion = true -> Float64.geb v million = true.
Proof.
  rewrite billion_eq, million_eq. intros H.
  apply geb_positive in H. destruct H as [-> | (m' & e' & -> & H)].
  - reflexivity.
  - apply positive_geb. lia.
Qed.

Lemma geb_million_thousand (v : float) :
  Float64.geb v million = true -> Float64.geb v thousand = true.
Proof.
  rewrite million_eq, thousand_eq. intros H.
  apply geb_positive in H. destruct H as [-> | (m' & e' & -> & H)].
  - reflexivity.
  - apply positive_geb. lia.
Qed.

(** A value below zero is under every positive threshold. *)
Lemma negative_not_geb (v : float) (m : positive) (e : Z) :
  Float64.ltb v (S754_zero false) = true ->
  Float64.geb v (S754_finite false m e) = false.
Proof.
  intros H. apply negative_inv in H.
  destruct H as [-> | (m' & e' & ->)]; reflexivity.
Qed.

(** ** The magnitude formatter *)

Lemma last_char_app (s t : string) :
  t <> "" -> last_char (s ++ t) = last_char t.
Proof.
  intros Ht. induction s as [ | c s IH]; simpl; [reflexivity | ].
  destruct (s ++ t) eqn:E; [ | assumption].
  destruct s; simpl in E; [contradiction | discriminate].
Qed.

Lemma last_char_snoc (s : string) (c : ascii) :
  last_char (s ++ String c "") = Some c.
Proof. rewrite last_char_app; [reflexivity | discriminate]. Qed.

Lemma digit_char_is_digit (n : Z) : is_digit (digit_char (n mod 10)) = true.
Proof.
  assert (H : 0 <= n mod 10 < 10) by (apply Z.mod_pos_bound; lia).
  assert (C : n mod 10 = 0 \/ n mod 10 = 1 \/ n mod 10 = 2 \/ n mod 10 = 3
              \/ n mod 10 = 4 \/ n mod 10 = 5 \/ n mod 10 = 6
              \/ n mod 10 = 7 \/ n mod 10 = 8 \/ n mod 10 = 9) by lia.
  repeat (destruct C as [-> | C]; [reflexivity | ]). rewrite C. reflexivity.
Qed.

(** A number shown with decimals ends in a digit. *)
Lemma fixed_point_last (p : nat) (n : Z) :
  exists c, last_char (fixed_point (S p) n) = Some c /\ is_digit c = true.
Proof.
  exists (digit_char (n mod 10)). split; [ | apply digit_char_is_digit].
  unfold fixed_point. simpl frac_digits.
  rewrite last_char_app; [ | discriminate].
  rewrite last_char_app; [apply last_char_snoc | ].
  destruct (frac_digits p (n / 10)); discriminate.
Qed.

Section Formatter.

Context {rt : PyRuntime}.

(** Once the value has been read as the float [v], the result depends on
    [v] alone. *)
Lemma format_large_numbers_ok (value : pyval) (v : float) :
  py_float value = Ok v ->
  format_large_numbers value = Ok (magnitude v).
Proof.
  intros H. unfold format_large_numbers, format_large_numbers_try.
  rewrite H. destruct value; try discriminate H; reflexivity.
Qed.

(** C1. [format_large_numbers] on [None] is the text for unavailable
    data; on a value that reads as the float [v] it is [v / 1e9] with one
    decimal and [B] when [v >= 1e9], [v / 1e6] with one decimal and [M]
    when [1e6 <= v < 1e9], [v / 1e3] with one decimal and [K] when
    [1e3 <= v < 1e6], and [v] with two decimals when [v >= 1e3] does not
    hold; 1500000000 gives 1.5B, 2500 gives 2.5K and 999 gives 999.00. *)
Theorem format_large_numbers_by_magnitude :
  format_large_numbers VNone = Ok unavailable
  /\ (forall (value : pyval) (v : float),
        py_float value = Ok v ->
        (Float64.geb v billion = true ->
         format_large_numbers value
         = Ok (format_f 1 (Float64.div v billion) ++ "B"))
        /\ (Float64.geb v million = true ->
            Float64.ltb v billion = true ->
            format_large_numbers value
            = Ok (format_f 1 (Float64.div v million) ++ "M"))
        /\ (Float64.geb v thousand = true ->
            Float64.ltb v million = true ->
            format_large_numbers value
            = Ok (format_f 1 (Float64.div v thousand) ++ "K"))
        /\ (Float64.geb v thousand = false ->
            format_large_numbers value = Ok (format_f 2 v)))
  /\ format_large_numbers (VInt 1500000000) = Ok "1.5B"
  /\ format_large_numbers (VInt 2500) = Ok "2.5K"
  /\ format_large_numbers (VInt 999) = Ok "999.00".
Proof.
  split; [reflexivity | ].
  split; [ | repeat split; vm_compute; reflexivity].
  intros value v Hv. rewrite (format_large_numbers_ok value v Hv).
  unfold magnitude. repeat split.
  - intros ->. reflexivity.
  - intros Hm Hb. apply ltb_not_geb in Hb. rewrite Hb, Hm. reflexivity.
  - intros Ht Hm. apply ltb_not_geb in Hm.
    destruct (Float64.geb v billion) eqn:Hb.
    + apply geb_billion_million in Hb. congruence.
    + rewrite Hm, Ht. reflexivity.
  - intros Ht.
    destruct (Float64.geb v million) eqn:Hm.
    + apply geb_million_thousand in Hm. congruence.
    + destruct (Float64.geb v billion) eqn:Hb.
      * apply geb_billion_million in Hb. congruence.
      * rewrite Ht. reflexivity.
Qed.

(** C2, as amended. An input whose reading as a float fails with a
    [ValueError] is a string that [float] cannot read, and
    [format_large_numbers] returns the text for unavailable data on it. *)
Theorem format_large_numbers_value_error (value : pyval) (e : exn) :
  py_float value = Raise e ->
  exn_cls e = ValueError ->
  format_large_numbers value = Ok unavailable
  /\ exists s, value = VStr s /\ float_of_str s = None.
Proof.
  intros H Hc. split.
  - unfold format_large_numbers, format_large_numbers_try.
    rewrite H. simpl. rewrite Hc. destruct value; reflexivity.
  - destruct value as [ | b | z | x | s | l | d]; simpl in H;
      try (injection H as <-; discriminate Hc); try discriminate H.
    + unfold int_to_float in H.
      destruct (Float64.is_inf (Float64.of_Z z)); [ | discriminate H].
      injection H as <-. discriminate Hc.
    + exists s. split; [reflexivity | ].
      destruct (float_of_str s); [discriminate H | reflexivity].
Qed.

(** C3. A value that reads as a float [v < 0] is shown as [v] with two
    decimals, whatever its magnitude: the text ends in a digit (or is
    [-inf]), never in [K], [M] or [B]. *)
Theorem format_large_numbers_negative (value : pyval) (v : float) :
  py_float value = Ok v ->
  Float64.ltb v (S754_zero false) = true ->
  format_large_numbers value = Ok (format_f 2 v)
  /\ exists c, last_char (format_f 2 v) = Some c
       /\ c <> "K"%char /\ c <> "M"%char /\ c <> "B"%char.
Proof.
  intros Hv Hneg. split.
  - rewrite (format_large_numbers_ok value v Hv). unfold magnitude.
    rewrite billion_eq, million_eq, thousand_eq.
    rewrite !(negative_not_geb v _ _ Hneg). reflexivity.
  - destruct (negative_inv v Hneg) as [-> | (m & e & ->)].
    + exists "f"%char. repeat split; discriminate.
    + unfold format_f, sign_str.
      destruct (fixed_point_last 1 (scaled 2 m e)) as (c & Hc & Hd).
      exists c. rewrite last_char_app.
      * split; [assumption | ].
        repeat split; intros ->; discriminate Hd.
      * intros E. rewrite E in Hc. discriminate Hc.
Qed.

End Formatter.

(** With the runtime [cpython]: the text 2500000 reads as a float between
    the million and the billion. *)
Lemma format_large_numbers_by_magnitude_witness :
  py_float (VStr "2500000") = Ok (Float64.of_Z 2500000)
  /\ format_large_numbers (VStr "2500000") = Ok "2.5M".
Proof.
  split; [vm_compute; reflexivity | ].
  destruct format_large_numbers_by_magnitude as (_ & H & _).
  destruct (H (VStr "2500000") (Float64.of_Z 2500000)) as (_ & HM & _).
  - vm_compute; reflexivity.
  - rewrite HM; vm_compute; reflexivity.
Defined.

(** With the runtime [cpython]: a text that is not a number. *)
Lemma format_large_numbers_value_error_witness :
  py_float (VStr "n/a")
  = Raise (mk_exn ValueError "could not convert string to float: 'n/a'")
  /\ format_large_numbers (VStr "n/a") = Ok "Dato no disponible".
Proof.
  split; [vm_compute; reflexivity | ].
  apply (format_large_numbers_value_error (VStr "n/a")
           (mk_exn ValueError "could not convert string to float: 'n/a'"));
    vm_compute; reflexivity.
Defined.

(** C2, as stated, fails: reading a list, a dict or an int beyond the range
    of floats as a float raises a [TypeError] or an [OverflowError], which
    [format_large_numbers] does not catch. *)
Lemma format_large_numbers_raises_other_errors :
  py_float (VList [VInt 1])
  = Raise (mk_exn TypeError
             ("float() argument must be a string or a real number, "
              ++ "not 'list'"))
  /\ format_large_numbers (VList [VInt 1])
     = Raise (mk_exn TypeError
                ("float() argument must be a string or a real number, "
                 ++ "not 'list'"))
  /\ format_large_numbers (VDict [])
     = Raise (mk_exn TypeError
                ("float() argument must be a string or a real number, "
                 ++ "not 'dict'"))
  /\ format_large_numbers (VInt (10 ^ 400))
     = Raise (mk_exn OverflowError "int too large to convert to float").
Proof. repeat split; vm_compute; reflexivity. Qed.

(** A negative int beyond the million in magnitude. *)
Lemma format_large_numbers_negative_witness :
  py_float (VInt (-2500000)) = Ok (Float64.of_Z (-2500000))
  /\ Float64.ltb (Float64.of_Z (-2500000)) (S754_zero false) = true
  /\ format_large_numbers (VInt (-2500000)) = Ok "-2500000.00".
Proof.
  split; [vm_compute; reflexivity | ].
  split; [vm_compute; reflexivity | ].
  destruct (format_large_numbers_negative
              (VInt (-2500000)) (Float64.of_Z (-2500000))) as [H _].
  - vm_compute; reflexivity.
  - vm_compute; reflexivity.
  - rewrite H; vm_compute; reflexivity.
Defined.

(** ** The debt change *)

Section DebtChange.

Context {rt : PyRuntime}.

Lemma py_sub_number (a b delta : pyval) :
  py_sub a b = Ok delta -> exists n, as_number delta = Some n.
Proof.
  unfold py_sub.
  destruct (as_number a) as [[x | x] | ], (as_number b) as [[y | y] | ];
    simpl; try discriminate;
    try (intros [= <-]; eexists; reflexivity).
  - destruct (int_to_float x); simpl; [ | discriminate].
    intros [= <-]; eexists; reflexivity.
  - destruct (int_to_float y); simpl; [ | discriminate].
    intros [= <-]; eexists; reflexivity.
Qed.

Lemma described_bind (label : string) (amount : result string) :
  match s <- amount ;; Ok (label ++ s) with
  | Ok s => s
  | Raise e => "Error en el cálculo: " ++ exn_msg e
  end = described label amount.
Proof. destruct amount; reflexivity. Qed.

(** The three directions, for a difference [delta] of two numbers. *)
Lemma calculate_debt_change_directions (last this delta : pyval) :
  py_sub this last = Ok delta ->
  (py_gt0 delta = Ok true ->
   calculate_debt_change last this
   = described "Aumento de " (format_large_numbers delta))
  /\ (py_gt0 delta = Ok false -> py_lt0 delta = Ok true ->
      exists magnitude, py_abs delta = Ok magnitude
        /\ calculate_debt_change last this
           = described "Disminución de " (format_large_numbers magnitude))
  /\ (py_gt0 delta = Ok false -> py_lt0 delta = Ok false ->
      calculate_debt_change last this = "Sin cambio").
Proof.
  intros Hsub.
  unfold calculate_debt_change, calculate_debt_change_try.
  rewrite Hsub. cbn [bind]. repeat split.
  - intros ->. cbn [bind]. apply described_bind.
  - intros -> ->. cbn [bind].
    destruct (py_sub_number _ _ _ Hsub) as (n & Hn).
    unfold py_abs. rewrite Hn.
    destruct n as [z | x]; eexists; (split; [reflexivity | ]); cbn [bind];
      apply described_bind.
  - intros -> ->. reflexivity.
Qed.

(** C5. With [delta = current - prior], on ints, on floats and on any two
    values whose difference is computed: [calculate_debt_change] returns
    the increase label with the formatted [delta] when [delta > 0], the
    decrease label with the formatted [|delta|] when [delta < 0], and the
    no-change text when [delta == 0] (100 to 150 is an increase of 50.00,
    150 to 100 a decrease of 50.00, 100 to 100 no change); and whenever
    the subtraction, a comparison or the formatting raises, it returns
    the error text with the message of the exception. *)
Theorem calculate_debt_change_cases :
  (forall prior current : Z,
      let delta := current - prior in
      (0 < delta ->
       calculate_debt_change (VInt prior) (VInt current)
       = described "Aumento de " (format_large_numbers (VInt delta)))
      /\ (delta < 0 ->
          calculate_debt_change (VInt prior) (VInt current)
          = described "Disminución de "
              (format_large_numbers (VInt (Z.abs delta))))
      /\ (delta = 0 ->
          calculate_debt_change (VInt prior) (VInt current)
          = "Sin cambio"))
  /\ (forall prior current : float,
        let delta := Float64.sub current prior in
        (Float64.gtb delta (S754_zero false) = true ->
         calculate_debt_change (VFloat prior) (VFloat current)
         = described "Aumento de " (format_large_numbers (VFloat delta)))
        /\ (Float64.ltb delta (S754_zero false) = true ->
            calculate_debt_change (VFloat prior) (VFloat current)
            = described "Disminución de "
                (format_large_numbers (VFloat (Float64.abs delta))))
        /\ (SFeqb delta (S754_zero false) = true ->
            calculate_debt_change (VFloat prior) (VFloat current)
            = "Sin cambio"))
  /\ (forall prior current delta : pyval,
        py_sub current prior = Ok delta ->
        (py_gt0 delta = Ok true ->
         calculate_debt_change prior current
         = described "Aumento de " (format_large_numbers delta))
        /\ (py_gt0 delta = Ok false -> py_lt0 delta = Ok true ->
            exists magnitude,
              py_abs delta = Ok magnitude
              /\ calculate_debt_change prior current
                 = described "Disminución de "
                     (format_large_numbers magnitude))
        /\ (py_gt0 delta = Ok false -> py_lt0 delta = Ok false ->
            calculate_debt_change prior current = "Sin cambio"))
  /\ calculate_debt_change (VInt 100) (VInt 150) = "Aumento de 50.00"
  /\ calculate_debt_change (VInt 150) (VInt 100) = "Disminución de 50.00"
  /\ calculate_debt_change (VInt 100) (VInt 100) = "Sin cambio"
  /\ (forall (prior current : pyval) (e : exn),
        calculate_debt_change_try prior current = Raise e ->
        calculate_debt_change prior current
        = "Error en el cálculo: " ++ exn_msg e)
  /\ calculate_debt_change (VInt 100) (VStr "150")
     = "Error en el cálculo: "
       ++ "unsupported operand type(s) for -: 'str' and 'int'"
  /\ calculate_debt_change (VInt 0) (VInt (2 ^ 1024))
     = "Error en el cálculo: int too large to convert to float".
Proof.
  repeat apply conj.
  - intros prior current delta.
    destruct (calculate_debt_change_directions
                (VInt prior) (VInt current) (VInt delta)
                eq_refl) as (Hi & Hd & Hn).
    repeat split.
    + intros H. apply Hi. cbv [py_gt0 py_lt0 as_number]. f_equal.
      apply Z.ltb_lt. lia.
    + intros H. destruct Hd as (magnitude & Ha & ->).
      * cbv [py_gt0 py_lt0 as_number]. f_equal. apply Z.ltb_ge. lia.
      * cbv [py_gt0 py_lt0 as_number]. f_equal. apply Z.ltb_lt. lia.
      * injection Ha as <-. reflexivity.
    + intros H.
      apply Hn; cbv [py_gt0 py_lt0 as_number]; f_equal; apply Z.ltb_ge; lia.
  - intros prior current delta.
    destruct (calculate_debt_change_directions
                (VFloat prior) (VFloat current) (VFloat delta)
                eq_refl) as (Hi & Hd & Hn).
    repeat split.
    + intros H. apply Hi. cbv [py_gt0 py_lt0 as_number]. rewrite H.
      reflexivity.
    + intros H. destruct Hd as (magnitude & Ha & ->).
      * cbv [py_gt0 py_lt0 as_number]. f_equal.
        unfold Float64.gtb, Float64.ltb, SFltb in *.
        rewrite (SFcompare_antisym delta (S754_zero false)).
        destruct (SFcompare delta (S754_zero false)) as [[ | | ] | ];
          simpl; congruence.
      * cbv [py_gt0 py_lt0 as_number]. rewrite H. reflexivity.
      * injection Ha as <-. reflexivity.
    + intros H. apply Hn; cbv [py_gt0 py_lt0 as_number]; f_equal;
        unfold Float64.gtb, Float64.ltb, SFltb, SFeqb in *.
      * rewrite (SFcompare_antisym delta (S754_zero false)).
        destruct (SFcompare delta (S754_zero false)) as [[ | | ] | ];
          simpl; congruence.
      * destruct (SFcompare delta (S754_zero false)) as [[ | | ] | ];
          simpl; congruence.
  - exact calculate_debt_change_directions.
  - vm_compute; reflexivity.
  - vm_compute; reflexivity.
  - vm_compute; reflexivity.
  - intros prior current e H. unfold calculate_debt_change. rewrite H.
    reflexivity.
  - vm_compute; reflexivity.
  - vm_compute; reflexivity.
Qed.

End DebtChange.

(** A debt that grows from one million to three and a half. *)
Lemma calculate_debt_change_cases_witness :
  calculate_debt_change (VInt 1000000) (VInt 3500000) = "Aumento de 2.5M".
Proof.
  destruct calculate_debt_change_cases as (H & _).
  destruct (H 1000000 3500000) as (Hi & _).
  rewrite Hi; [vm_compute; reflexivity | vm_compute; reflexivity].
Defined.

(** ** The exchange mapper *)

(** C8. The lookup maps each of the eight codes to its name and returns
    every other code as it is. *)
Theorem market_name_total :
  map fst EXCHANGE_MAPPING
  = ["NMS"; "NYQ"; "ASE"; "MCE"; "TOR"; "LSE"; "JPX"; "OTC"]
  /\ market_name "NMS" = "NASDAQ"
  /\ market_name "NYQ" = "NYSE"
  /\ market_name "ASE" = "AMEX"
  /\ market_name "MCE" = "Mercado continuo"
  /\ market_name "TOR" = "Toronto Stock Exchange"
  /\ market_name "LSE" = "London Stock Exchange"
  /\ market_name "JPX" = "Tokyo Stock Exchange"
  /\ market_name "OTC" = "Over the Counter"
  /\ market_name "XXX" = "XXX"
  /\ (forall code name : string,
        In (code, name) EXCHANGE_MAPPING -> market_name code = name)
  /\ (forall code : string,
        ~ In code (map fst EXCHANGE_MAPPING) -> market_name code = code).
Proof.
  repeat apply conj; try reflexivity.
  - intros code name H. simpl in H.
    repeat (destruct H as [[= <- <-] | H]; [reflexivity | ]).
    contradiction.
  - intros code H. unfold market_name.
    unfold EXCHANGE_MAPPING in *. cbn [mapping_get]. cbn [map fst In] in H.
    repeat match goal with
           | |- context [String.eqb ?k code] =>
               destruct (String.eqb_spec k code) as [E | _];
               [exfalso; apply H; tauto | ]
           end.
    reflexivity.
Qed.

(** A code that the table does not hold. *)
Lemma market_name_total_witness : market_name "BUE" = "BUE".
Proof.
  destruct market_name_total as (_ & _ & _ & _ & _ & _ & _ & _ & _ & _ & _ & H).
  apply H. simpl. intros H'.
  repeat (destruct H' as [H' | H']; [discriminate H' | ]). exact H'.
Defined.

(** ** The fundamental extractor *)

Section Fundamental.

Context {rt : PyRuntime}.

Lemma safe_get_missing (d : dict) (field : string) (default : pyval) :
  dict_get d field = None -> safe_get (VDict d) field default = Ok default.
Proof.
  intros H. unfold safe_get. cbn [py_contains]. unfold dict_mem.
  rewrite H. reflexivity.
Qed.

Lemma safe_get_found (d : dict) (field : string) (default v : pyval) :
  dict_get d field = Some v -> safe_get (VDict d) field default = Ok v.
Proof.
  intros H. unfold safe_get. cbn [py_contains py_get]. unfold dict_mem.
  rewrite H. reflexivity.
Qed.

(** The default text is not a number, so formatting it gives it back. *)
Lemma formatted_missing (d : dict) (field : string) :
  float_of_str unavailable = None ->
  dict_get d field = None ->
  formatted (VDict d) field = Ok (VStr unavailable).
Proof.
  intros Hf H. unfold formatted, safe_get_default.
  rewrite (safe_get_missing d field _ H). cbn [bind].
  unfold format_large_numbers, format_large_numbers_try.
  cbn [is_none py_float]. rewrite Hf. reflexivity.
Qed.

(** C6. When the vendor info is a mapping with none of the fields looked
    up, and the default text does not read as a float,
    [fetch_fundamental_data] prints nothing and returns a mapping where
    each of the fourteen metrics is the default text and the nested debt
    comparison is present with its prior entry only, without the change
    entry. *)
Theorem fetch_fundamental_data_all_missing
  (yf : Vendor) (ticker : string) (stock : Stock) (d : dict) :
  float_of_str unavailable = None ->
  yf ticker = Ok stock ->
  info stock = Ok (VDict d) ->
  (forall field, In field looked_up_fields -> dict_get d field = None) ->
  exists fundamental_data,
    fetch_fundamental_data yf ticker = ([], fundamental_data)
    /\ map fst fundamental_data
       = (metric_labels ++ ["Debt Comparison"])%list
    /\ (forall label, In label metric_labels ->
          dict_get fundamental_data label = Some (VStr unavailable))
    /\ dict_get fundamental_data "Debt Comparison"
       = Some (VDict [("Deuda Anterior", VStr unavailable)])
    /\ dict_get [("Deuda Anterior", VStr unavailable)] "Cambio Deuda" = None.
Proof.
  intros Hf Hyf Hinfo Hd.
  assert (Hget : forall field, In field looked_up_fields ->
            safe_get_default (VDict d) field = Ok (VStr unavailable)).
  { intros field Hin. apply safe_get_missing, Hd, Hin. }
  assert (Hfmt : forall field, In field looked_up_fields ->
            formatted (VDict d) field = Ok (VStr unavailable)).
  { intros field Hin. apply formatted_missing; [assumption | ].
    apply Hd, Hin. }
  unfold fetch_fundamental_data, fetch_fundamental_data_try.
  rewrite Hyf. cbn [bind]. rewrite Hinfo. cbn [bind].
  unfold dividend_yield_percent, debt_comparison_group.
  rewrite !Hget by (simpl; tauto). cbn [bind].
  rewrite !Hfmt by (simpl; tauto). cbn [bind].
  rewrite !safe_get_missing by (apply Hd; simpl; tauto).
  eexists. split; [reflexivity | ].
  split; [reflexivity | ].
  split; [ | split; reflexivity].
  intros label Hin. simpl in Hin.
  repeat (destruct Hin as [<- | Hin]; [reflexivity | ]). contradiction.
Qed.

(** C9. When the vendor info is a mapping that holds [None] under
    [dividendYield], the multiplication by 100 is skipped, the entry is
    the text [None%], and this is the ["Dividend Yield"] entry of the
    mapping returned whenever the rest of the extraction does not
    raise. *)
Theorem dividend_yield_none
  (yf : Vendor) (ticker : string) (stock : Stock) (d : dict) :
  yf ticker = Ok stock ->
  info stock = Ok (VDict d) ->
  dict_get d "dividendYield" = Some VNone ->
  dividend_yield_percent (VDict d) = Ok VNone
  /\ dividend_yield_entry VNone = VStr "None%"
  /\ dividend_yield_entry VNone <> VStr unavailable
  /\ (forall fundamental_data,
        fetch_fundamental_data_try yf ticker = Ok fundamental_data ->
        fetch_fundamental_data yf ticker = ([], fundamental_data)
        /\ dict_get fundamental_data "Dividend Yield"
           = Some (VStr "None%")).
Proof.
  intros Hyf Hinfo Hd.
  assert (Hp : dividend_yield_percent (VDict d) = Ok VNone).
  { unfold dividend_yield_percent, safe_get_default.
    rewrite (safe_get_found d _ _ VNone Hd). reflexivity. }
  split; [assumption | ].
  split; [reflexivity | ].
  split; [discriminate | ].
  intros fundamental_data H. split.
  - unfold fetch_fundamental_data. rewrite H. reflexivity.
  - revert H. unfold fetch_fundamental_data_try.
    rewrite Hyf. cbn [bind]. rewrite Hinfo. cbn [bind]. rewrite Hp.
    cbn [bind].
    repeat match goal with
           | |- context [bind ?c _] =>
               destruct c; cbn [bind]; [ | discriminate]
           end.
    intros [= <-]. reflexivity.
Qed.

End Fundamental.

(** With the runtime [cpython]: an info mapping that holds the symbol and
    nothing else. *)
Lemma fetch_fundamental_data_all_missing_witness :
  float_of_str unavailable = None
  /\ exists fundamental_data,
       fetch_fundamental_data
         (vendor_of (VDict [("symbol", VStr "ACME")]) (Frame [])) "ACME"
       = ([], fundamental_data)
       /\ dict_get fundamental_data "Free Cash Flow"
          = Some (VStr "Dato no disponible")
       /\ dict_get fundamental_data "Debt Comparison"
          = Some (VDict [("Deuda Anterior", VStr "Dato no disponible")]).
Proof.
  split; [vm_compute; reflexivity | ].
  destruct (fetch_fundamental_data_all_missing
              (vendor_of (VDict [("symbol", VStr "ACME")]) (Frame []))
              "ACME"
              (mk_stock (Ok (VDict [("symbol", VStr "ACME")]))
                 (Ok (Frame [])) (Ok (Frame [])))
              [("symbol", VStr "ACME")])
    as (fundamental_data & H & _ & Hm & Hg & _).
  - vm_compute; reflexivity.
  - reflexivity.
  - reflexivity.
  - intros field Hin. simpl in Hin.
    repeat (destruct Hin as [<- | Hin]; [reflexivity | ]). contradiction.
  - exists fundamental_data. split; [exact H | ]. split; [ | exact Hg].
    apply Hm. simpl. tauto.
Defined.

(** With the runtime [cpython]: an info mapping with [None] as the dividend
    yield, and a price to earnings ratio. *)
Lemma dividend_yield_none_witness :
  exists fundamental_data,
    fetch_fundamental_data
      (vendor_of (VDict [("dividendYield", VNone); ("trailingPE", VInt 12)])
         (Frame []))
      "ACME"
    = ([], fundamental_data)
    /\ dict_get fundamental_data "Dividend Yield" = Some (VStr "None%")
    /\ dict_get fundamental_data "P/E Ratio" = Some (VInt 12).
Proof.
  destruct (dividend_yield_none
              (vendor_of
                 (VDict [("dividendYield", VNone); ("trailingPE", VInt 12)])
                 (Frame []))
              "ACME"
              (mk_stock
                 (Ok (VDict [("dividendYield", VNone); ("trailingPE", VInt 12)]))
                 (Ok (Frame [])) (Ok (Frame [])))
              [("dividendYield", VNone); ("trailingPE", VInt 12)]
              eq_refl eq_refl eq_refl)
    as (_ & _ & _ & H).
  eexists.
  assert (E : fetch_fundamental_data_try
                (vendor_of
                   (VDict [("dividendYield", VNone); ("trailingPE", VInt 12)])
                   (Frame []))
                "ACME"
              = Ok ?[fd]) by (vm_compute; reflexivity).
  destruct (H _ E) as [H1 H2].
  split; [exact H1 | ]. split; [exact H2 | reflexivity].
Defined.

(** ** The debt comparison *)

Section DebtComparison.

Context {rt : PyRuntime}.







End DebtComparison.

Section DebtComparisonClaims.

Context {rt : PyRuntime}.






(** C10. When the block of [fetch_debt_comparison] stops on an exception,
    whatever it had put in the mapping by then, the function prints the
    error and returns the empty mapping; a mapping that is not empty is
    the one a block that ran to its end has built.  A line item with a
    single period column makes the reading of column 1 fail. *)
Theorem fetch_debt_comparison_all_or_nothing :
  (forall (yf : Vendor) (ticker : string) (so_far : dict) (e : exn),
      fetch_debt_comparison_try yf ticker [] = (so_far, Raise e) ->
      fetch_debt_comparison yf ticker = ([debt_error_line ticker e], []))
  /\ (forall (yf : Vendor) (ticker : string),
        snd (fetch_debt_comparison yf ticker) <> [] ->
        fetch_debt_comparison_try yf ticker []
        = (snd (fetch_debt_comparison yf ticker),
           Ok (snd (fetch_debt_comparison yf ticker)))
        /\ fst (fetch_debt_comparison yf ticker) = [])
  /\ (forall (ticker : string) (fin : statement) (x : float),
        fetch_debt_comparison
          (fun _ => Ok (mk_stock (Ok VNone) (Ok fin)
                          (Ok (Frame [("Total Debt", [VFloat x])]))))
          ticker
        = ([debt_error_line ticker
              (mk_exn IndexError
                 "single positional indexer is out-of-bounds")],
           [])).
Proof.
  repeat apply conj.
  - intros yf ticker so_far e H. unfold fetch_debt_comparison.
    rewrite H. reflexivity.
  - intros yf ticker. unfold fetch_debt_comparison.
    destruct (fetch_debt_comparison_try yf ticker []) as [d [r | e]] eqn:E;
      cbn [snd fst]; [ | congruence].
    intros _. split; [ | reflexivity].
    revert E. unfold fetch_debt_comparison_try.
    cbv [bbind lift fresh assign current bret].
    repeat match goal with
           | |- context [match ?r with Ok _ => _ | Raise _ => _ end] =>
               lazymatch r with
               | context [match _ with _ => _ end] => fail
               | _ => destruct r; try discriminate
               end
           | |- context [if ?b then _ else _] =>
               lazymatch b with
               | context [match _ with _ => _ end] => fail
               | _ => destruct b
               end
           end;
      intros [= <- <-]; reflexivity.
  - intros ticker fin x. reflexivity.
Qed.

End DebtComparisonClaims.


(** A NaN where the vendor has no figure is true and not zero: the pair is
    shown, the NaN compares as neither an increase nor a decrease. *)
Example fetch_debt_comparison_nan :
  fetch_debt_comparison
    (vendor_of (VDict [])
       (Frame [("Total Debt", [VFloat S754_nan; VFloat (Float64.of_Z 1000000000)])]))
    "ACME"
  = ([],
     [ ("Total Debt Last Year", VStr "1.0B");
       ("Total Debt This Year", VStr "nan");
       ("Debt Change", VStr "Sin cambio") ]).
Proof. vm_compute; reflexivity. Qed.

(** With the runtime [cpython]: the block stops on the list in the second
    line, after four assignments. *)
Lemma fetch_debt_comparison_all_or_nothing_witness :
  exists so_far e,
    fetch_debt_comparison_try (vendor_of (VDict []) malformed_sheet) "ACME" []
    = (so_far, Raise e)
    /\ so_far
       = [ ("Total Debt Last Year", VStr "1.0B");
           ("Total Debt This Year", VStr "3.5B");
           ("Debt Change", VStr "Aumento de 2.5B");
           ("Long Term Debt Last Year", VStr "950.0K") ]
    /\ fetch_debt_comparison (vendor_of (VDict []) malformed_sheet) "ACME"
       = ([debt_error_line "ACME" e], []).
Proof.
  eexists. eexists.
  assert (E : fetch_debt_comparison_try
                (vendor_of (VDict []) malformed_sheet) "ACME" []
              = (?[so_far], Raise ?[e])) by (vm_compute; reflexivity).
  split; [exact E | ]. split; [reflexivity | ].
  destruct fetch_debt_comparison_all_or_nothing as (H & _).
  exact (H _ _ _ _ E).
Defined.

Section NeverRaise.

Context {rt : PyRuntime}.

(** C4. [fetch_fundamental_data] and [fetch_debt_comparison] return a
    pair of the text printed and a mapping for every vendor and ticker;
    when their [try] block raises, the text is the error line with the
    message of the exception and the mapping is empty.  So it is when
    the vendor is unreachable, when the info is [None] or holds a list
    where a number is expected, and when the balance sheet is not a
    table or lacks a period column. *)
Theorem fetchers_never_raise :
  (forall (yf : Vendor) (ticker : string),
      exists printed fundamental_data,
        fetch_fundamental_data yf ticker = (printed, fundamental_data)
        /\ forall e,
             fetch_fundamental_data_try yf ticker = Raise e ->
             printed = [fundamental_error_line ticker e]
             /\ fundamental_data = [])
  /\ (forall (yf : Vendor) (ticker : string),
        exists printed debt_comparison,
          fetch_debt_comparison yf ticker = (printed, debt_comparison)
          /\ forall so_far e,
               fetch_debt_comparison_try yf ticker [] = (so_far, Raise e) ->
               printed = [debt_error_line ticker e] /\ debt_comparison = [])
  /\ fetch_fundamental_data failing_vendor "ACME"
     = (["Error al obtener datos fundamentales para ACME: 404 Client Error"],
        [])
  /\ fetch_debt_comparison failing_vendor "ACME"
     = (["Error al obtener la comparación de deuda para ACME: "
         ++ "404 Client Error"],
        [])
  /\ fetch_fundamental_data (vendor_of VNone (Frame [])) "ACME"
     = (["Error al obtener datos fundamentales para ACME: "
         ++ "argument of type 'NoneType' is not iterable"],
        [])
  /\ fetch_fundamental_data
       (vendor_of (VDict [("freeCashflow", VList [VInt 1])]) (Frame []))
       "ACME"
     = (["Error al obtener datos fundamentales para ACME: "
         ++ "float() argument must be a string or a real number, "
         ++ "not 'list'"],
        [])
  /\ fetch_debt_comparison (vendor_of (VDict []) (NotFrame VNone)) "ACME"
     = (["Error al obtener la comparación de deuda para ACME: "
         ++ "'NoneType' object has no attribute 'index'"],
        [])
  /\ fetch_debt_comparison
       (vendor_of (VDict []) (Frame [("Long Term Debt", [])])) "ACME"
     = (["Error al obtener la comparación de deuda para ACME: "
         ++ "single positional indexer is out-of-bounds"],
        []).
Proof.
  split; [ | split; [ | repeat split]].
  - intros yf ticker. unfold fetch_fundamental_data.
    destruct (fetch_fundamental_data_try yf ticker) as [d | e'];
      eexists; eexists; (split; [reflexivity | ]); intros e H.
    + discriminate H.
    + injection H as <-. split; reflexivity.
  - intros yf ticker. unfold fetch_debt_comparison.
    destruct (fetch_debt_comparison_try yf ticker []) as [d [r | e']];
      eexists; eexists; (split; [reflexivity | ]); intros so_far e H.
    + discriminate H.
    + injection H as _ <-. split; reflexivity.
Qed.

End NeverRaise.

(** The vendor is unreachable. *)
Lemma fetchers_never_raise_witness :
  fetch_fundamental_data_try failing_vendor "ACME"
  = Raise (mk_exn (VendorError "HTTPError") "404 Client Error")
  /\ fetch_fundamental_data failing_vendor "ACME"
     = ([fundamental_error_line "ACME"
           (mk_exn (VendorError "HTTPError") "404 Client Error")],
        []).
Proof.
  split; [reflexivity | ].
  destruct fetchers_never_raise as (H & _).
  destruct (H failing_vendor "ACME") as (printed & fundamental_data & E & Hr).
  destruct (Hr (mk_exn (VendorError "HTTPError") "404 Client Error") eq_refl)
    as [-> ->].
  exact E.
Defined.

(** * Further properties *)

(** ** The formatter, beyond its contract *)

Section FormatterMore.

Context {rt : PyRuntime}.

(** X1. [format_large_numbers] raises on a list or a dict (a [TypeError])
    and on an int beyond the range of floats (an [OverflowError]), and on
    nothing else: [None], a bool, a float, a string and an int in range
    always give a text. *)
Theorem format_large_numbers_raises_only (value : pyval) (e : exn) :
  format_large_numbers value = Raise e ->
  (exn_cls e = TypeError
   /\ ((exists l, value = VList l) \/ (exists d, value = VDict d)))
  \/ (exn_cls e = OverflowError
      /\ exists z, value = VInt z
           /\ Float64.is_inf (Float64.of_Z z) = true).
Proof.
  unfold format_large_numbers, format_large_numbers_try.
  destruct value as [ | b | z | x | s | l | d];
    cbn [is_none py_float bind]; try discriminate.
  - unfold int_to_float.
    destruct (Float64.is_inf (Float64.of_Z z)) eqn:E;
      cbn [bind exn_cls is_ValueError]; [ | discriminate].
    intros [= <-]. right. split; [reflexivity | ]. exists z. auto.
  - destruct (float_of_str s); cbn [bind exn_cls is_ValueError];
      discriminate.
  - intros [= <-]. left. split; [reflexivity | ]. left. exists l. reflexivity.
  - intros [= <-]. left. split; [reflexivity | ]. right. exists d.
    reflexivity.
Qed.

(** The text of two decimals ends in a digit, or is [nan], [inf] or
    [-inf]. *)
Lemma format_f_two_last (v : float) :
  exists c, last_char (format_f 2 v) = Some c
    /\ (is_digit c = true \/ c = "n"%char \/ c = "f"%char).
Proof.
  destruct v as [s | s | | s m e]; unfold format_f, sign_str.
  - destruct (fixed_point_last 1 0) as (c & Hc & Hd).
    exists c. split; [ | left; exact Hd].
    destruct s; [ | exact Hc].
    rewrite last_char_app; [exact Hc | ].
    intros E. rewrite E in Hc. discriminate Hc.
  - exists "f"%char. split; [destruct s; reflexivity | auto].
  - exists "n"%char. split; [reflexivity | auto].
  - destruct (fixed_point_last 1 (scaled 2 m e)) as (c & Hc & Hd).
    exists c. split; [ | left; exact Hd].
    destruct s; [ | exact Hc].
    rewrite last_char_app; [exact Hc | ].
    intros E. rewrite E in Hc. discriminate Hc.
Qed.

(** X2. The last character of the text tells the band of the value: it is
    [B] exactly when [v >= 1e9], [M] exactly when [v >= 1e6] and not
    [v >= 1e9], [K] exactly when [v >= 1e3] and not [v >= 1e6]. *)
Theorem format_large_numbers_suffix (value : pyval) (v : float) :
  py_float value = Ok v ->
  exists text,
    format_large_numbers value = Ok text
    /\ (last_char text = Some "B"%char <-> Float64.geb v billion = true)
    /\ (last_char text = Some "M"%char
        <-> Float64.geb v million = true /\ Float64.geb v billion = false)
    /\ (last_char text = Some "K"%char
        <-> Float64.geb v thousand = true /\ Float64.geb v million = false).
Proof.
  intros Hv. exists (magnitude v).
  split; [apply format_large_numbers_ok; exact Hv | ].
  unfold magnitude.
  destruct (Float64.geb v billion) eqn:Hb.
  - pose proof (geb_billion_million v Hb) as Hm.
    pose proof (geb_million_thousand v Hm) as Ht.
    rewrite last_char_snoc, Hm, Ht.
    repeat split; try congruence; try (intros [? ?]; congruence).
  - destruct (Float64.geb v million) eqn:Hm.
    + pose proof (geb_million_thousand v Hm) as Ht.
      rewrite last_char_snoc, Ht.
      repeat split; try congruence; try (intros [? ?]; congruence).
    + destruct (Float64.geb v thousand) eqn:Ht.
      * rewrite last_char_snoc.
        repeat split; try congruence; try (intros [? ?]; congruence).
      * destruct (format_f_two_last v) as (c & -> & Hc).
        split; [ | split];
          (split;
           [ intros H; injection H as ->;
             destruct Hc as [Hc | [Hc | Hc]]; discriminate Hc
           | try congruence; intros [? ?]; congruence ]).
Qed.

(** X3. The thousands round up past their band: every int from 999950 to
    999999 is shown as 1000.0K, not as 1.0M. *)
Theorem format_large_numbers_thousand_thousands (z : Z) :
  999950 <= z < 1000000 ->
  format_large_numbers (VInt z) = Ok "1000.0K".
Proof.
  intros Hz.
  assert (Hall : Forall (fun z => format_large_numbers (VInt z)
                                  = Ok "1000.0K") top_of_thousands).
  { unfold top_of_thousands.
    repeat (apply Forall_cons; [vm_compute; reflexivity | ]).
    apply Forall_nil. }
  rewrite Forall_forall in Hall. apply Hall.
  unfold top_of_thousands. apply in_map_iff.
  exists (Z.to_nat (z - 999950)). split; [lia | ].
  apply in_seq. lia.
Qed.

End FormatterMore.

(** The first of them. *)
Lemma format_large_numbers_thousand_thousands_witness :
  format_large_numbers (VInt 999950) = Ok "1000.0K".
Proof. apply format_large_numbers_thousand_thousands. lia. Defined.

(** An int of 1025 bits. *)
Lemma format_large_numbers_raises_only_witness :
  format_large_numbers (VInt (2 ^ 1024))
  = Raise (mk_exn OverflowError "int too large to convert to float")
  /\ exists z, VInt (2 ^ 1024) = VInt z
       /\ Float64.is_inf (Float64.of_Z z) = true.
Proof.
  assert (E : format_large_numbers (VInt (2 ^ 1024))
              = Raise (mk_exn OverflowError
                         "int too large to convert to float"))
    by (vm_compute; reflexivity).
  split; [exact E | ].
  destruct (format_large_numbers_raises_only _ _ E) as [[H _] | [_ H]];
    [discriminate H | exact H].
Defined.

(** With the runtime [cpython]: a text that reads as 72.5 millions. *)
Lemma format_large_numbers_suffix_witness :
  exists text,
    format_large_numbers (VStr "7.25e7") = Ok text
    /\ last_char text = Some "M"%char.
Proof.
  destruct (format_large_numbers_suffix
              (VStr "7.25e7") (Float64.of_Z 72500000))
    as (text & H & _ & HM & _).
  - vm_compute; reflexivity.
  - exists text. split; [exact H | ]. apply HM.
    split; vm_compute; reflexivity.
Defined.

(** ** The debt change, beyond its contract *)

(** The sign of a rounded number is the sign it is given. *)
Lemma binary_round_aux_opp (m e : Z) (l : location) :
  binary_round_aux Float64.prec Float64.emax true m e l
  = SFopp (binary_round_aux Float64.prec Float64.emax false m e l).
Proof.
  unfold binary_round_aux.
  destruct (shr_fexp Float64.prec Float64.emax m e l) as [mrs e'].
  destruct (shr_fexp Float64.prec Float64.emax
              (round_nearest_even (shr_m mrs) (loc_of_shr_record mrs))
              e' loc_Exact) as [mrs' e''].
  destruct (shr_m mrs'); [reflexivity | | reflexivity].
  destruct (e'' <=? Float64.emax - Float64.prec); reflexivity.
Qed.

Lemma binary_normalize_opp (z e : Z) :
  z <> 0 ->
  binary_normalize Float64.prec Float64.emax (- z) e false
  = SFopp (binary_normalize Float64.prec Float64.emax z e false).
Proof.
  intros Hz. destruct z as [ | p | p]; [contradiction | | ];
    unfold binary_normalize, binary_round; cbn [Z.opp];
    destruct (shl_align p e _) as [mz ez].
  - apply binary_round_aux_opp.
  - rewrite binary_round_aux_opp.
    destruct (binary_round_aux Float64.prec Float64.emax false (Z.pos mz) ez
                loc_Exact) as [ [ | ] | [ | ] | | [ | ] ? ?]; reflexivity.
Qed.

(** A difference over zero, taken the other way round, is its opposite. *)
Lemma sub_swap (x y : float) :
  Float64.gtb (Float64.sub y x) (S754_zero false) = true ->
  Float64.sub x y = SFopp (Float64.sub y x).
Proof.
  unfold Float64.gtb, Float64.ltb, Float64.sub.
  destruct x as [sx | sx | | sx mx ex], y as [sy | sy | | sy my ey];
    try (simpl; discriminate);
    try (destruct sx; try destruct sy; simpl; (discriminate || reflexivity));
    try (destruct sy; simpl; (discriminate || reflexivity));
    try (simpl; intros _; rewrite ?Bool.negb_involutive; reflexivity).
  unfold SFsub. rewrite (Z.min_comm ey ex).
  set (a := cond_Zopp sx _). set (b := cond_Zopp sy _).
  intros H.
  replace (a - b) with (- (b - a)) by lia.
  apply binary_normalize_opp.
  intros E. rewrite E in H. discriminate H.
Qed.

(** The difference of a float and itself is a zero, or a NaN. *)
Lemma sub_diag (x : float) :
  Float64.sub x x = S754_zero false \/ Float64.sub x x = S754_nan.
Proof.
  unfold Float64.sub.
  destruct x as [[ | ] | [ | ] | | s m e]; simpl; auto.
  rewrite Z.sub_diag. auto.
Qed.

(** What is over zero is its own absolute value. *)
Lemma abs_positive (d : float) :
  Float64.gtb d (S754_zero false) = true -> Float64.abs (SFopp d) = d.
Proof.
  destruct d as [[ | ] | [ | ] | | [ | ] m e]; simpl;
    try discriminate; reflexivity.
Qed.

Lemma gtb_opp_false (d : float) :
  Float64.gtb d (S754_zero false) = true ->
  Float64.gtb (SFopp d) (S754_zero false) = false
  /\ Float64.ltb (SFopp d) (S754_zero false) = true.
Proof.
  destruct d as [[ | ] | [ | ] | | [ | ] m e]; simpl;
    try discriminate; auto.
Qed.

Section DebtChangeMore.

Context {rt : PyRuntime}.

(** X4. Swapping the two periods turns an increase into the decrease of
    the same amount: for ints whose difference is within the range of
    floats, and for floats. *)
Theorem calculate_debt_change_swap :
  (forall (a b : Z) (amount : string),
      a < b ->
      format_large_numbers (VInt (b - a)) = Ok amount ->
      calculate_debt_change (VInt a) (VInt b) = "Aumento de " ++ amount
      /\ calculate_debt_change (VInt b) (VInt a)
         = "Disminución de " ++ amount)
  /\ (forall x y : float,
        Float64.gtb (Float64.sub y x) (S754_zero false) = true ->
        calculate_debt_change (VFloat x) (VFloat y)
        = "Aumento de " ++ magnitude (Float64.sub y x)
        /\ calculate_debt_change (VFloat y) (VFloat x)
           = "Disminución de " ++ magnitude (Float64.sub y x)).
Proof.
  split.
  - intros a b amount Hlt Hfmt. split.
    + destruct (calculate_debt_change_directions
                  (VInt a) (VInt b) (VInt (b - a)) eq_refl) as (Hi & _).
      rewrite Hi, Hfmt; [reflexivity | ].
      cbv [py_gt0 as_number]. f_equal. apply Z.ltb_lt. lia.
    + destruct (calculate_debt_change_directions
                  (VInt b) (VInt a) (VInt (a - b)) eq_refl) as (_ & Hd & _).
      destruct Hd as (magnitude & Ha & ->).
      * cbv [py_gt0 as_number]. f_equal. apply Z.ltb_ge. lia.
      * cbv [py_lt0 as_number]. f_equal. apply Z.ltb_lt. lia.
      * injection Ha as <-.
        replace (Z.abs (a - b)) with (b - a) by lia.
        rewrite Hfmt. reflexivity.
  - intros x y H. split.
    + destruct (calculate_debt_change_directions
                  (VFloat x) (VFloat y) (VFloat (Float64.sub y x)) eq_refl)
        as (Hi & _).
      rewrite Hi; [reflexivity | ].
      cbv [py_gt0 as_number]. rewrite H. reflexivity.
    + destruct (calculate_debt_change_directions
                  (VFloat y) (VFloat x) (VFloat (Float64.sub x y)) eq_refl)
        as (_ & Hd & _).
      rewrite (sub_swap x y H) in *.
      destruct (gtb_opp_false _ H) as [Hg Hl].
      destruct Hd as (magnitude & Ha & ->).
      * cbv [py_gt0 as_number]. rewrite Hg. reflexivity.
      * cbv [py_lt0 as_number]. rewrite Hl. reflexivity.
      * injection Ha as <-. rewrite (abs_positive _ H). reflexivity.
Qed.

(** X5. Two equal periods are no change, for every int (also beyond the
    range of floats: nothing is formatted) and every float (the infinities
    included); and a NaN period is reported as no change, whatever the
    other period. *)
Theorem calculate_debt_change_no_change :
  (forall a : Z, calculate_debt_change (VInt a) (VInt a) = "Sin cambio")
  /\ (forall x : float,
        calculate_debt_change (VFloat x) (VFloat x) = "Sin cambio")
  /\ (forall x : float,
        calculate_debt_change (VFloat S754_nan) (VFloat x) = "Sin cambio"
        /\ calculate_debt_change (VFloat x) (VFloat S754_nan) = "Sin cambio").
Proof.
  split; [ | split].
  - intros a.
    unfold calculate_debt_change, calculate_debt_change_try.
    cbn [py_sub as_number bind py_gt0 py_lt0].
    rewrite Z.sub_diag. reflexivity.
  - intros x.
    destruct (calculate_debt_change_directions
                (VFloat x) (VFloat x) (VFloat (Float64.sub x x)) eq_refl)
      as (_ & _ & Hn).
    apply Hn; cbv [py_gt0 py_lt0 as_number];
      destruct (sub_diag x) as [-> | ->]; reflexivity.
  - intros x. split.
    + destruct (calculate_debt_change_directions
                  (VFloat S754_nan) (VFloat x)
                  (VFloat (Float64.sub x S754_nan)) eq_refl)
        as (_ & _ & Hn).
      apply Hn; cbv [py_gt0 py_lt0 as_number]; destruct x; reflexivity.
    + destruct (calculate_debt_change_directions
                  (VFloat x) (VFloat S754_nan)
                  (VFloat (Float64.sub S754_nan x)) eq_refl)
        as (_ & _ & Hn).
      apply Hn; reflexivity.
Qed.

(** X6. When one of the two periods is not a number ([None], a string, a
    list, a dict), the result is the error text of the subtraction, which
    names the type of the current period and then that of the prior one. *)
Theorem calculate_debt_change_not_numbers (last this : pyval) :
  as_number last = None \/ as_number this = None ->
  calculate_debt_change last this
  = "Error en el cálculo: unsupported operand type(s) for -: '"
    ++ type_name this ++ "' and '" ++ type_name last ++ "'".
Proof.
  intros H. unfold calculate_debt_change, calculate_debt_change_try, py_sub.
  destruct H as [H | H]; rewrite H.
  - destruct (as_number this) as [[ | ] | ]; reflexivity.
  - reflexivity.
Qed.

End DebtChangeMore.

(** A debt that goes from 1.2 to 3.7 millions, and back. *)
Lemma calculate_debt_change_swap_witness :
  calculate_debt_change (VInt 1200000) (VInt 3700000) = "Aumento de 2.5M"
  /\ calculate_debt_change (VInt 3700000) (VInt 1200000)
     = "Disminución de 2.5M".
Proof.
  destruct calculate_debt_change_swap as (H & _).
  apply (H 1200000 3700000 "2.5M"); vm_compute; reflexivity.
Defined.

(** A prior period that the vendor gives as a text. *)
Lemma calculate_debt_change_not_numbers_witness :
  calculate_debt_change (VStr "n/a") (VFloat (Float64.of_Z 5))
  = "Error en el cálculo: unsupported operand type(s) for -: "
    ++ "'float' and 'str'".
Proof.
  apply (calculate_debt_change_not_numbers
           (VStr "n/a") (VFloat (Float64.of_Z 5))).
  left. reflexivity.
Defined.

(** ** The fundamental data, whatever the vendor returns *)

Section FundamentalMore.

Context {rt : PyRuntime}.

Lemma formatted_text (info : pyval) (field : string) (v : pyval) :
  formatted info field = Ok v -> is_text v = true.
Proof.
  unfold formatted.
  destruct (safe_get_default info field); cbn [bind]; [ | discriminate].
  destruct (format_large_numbers _); cbn [bind]; [ | discriminate].
  intros [= <-]. reflexivity.
Qed.

Lemma formatted_found (d : dict) (field : string) (v : pyval) :
  dict_get d field = Some v ->
  formatted (VDict d) field
  = (s <- format_large_numbers v ;; Ok (VStr s)).
Proof.
  intros H. unfold formatted, safe_get_default.
  rewrite (safe_get_found d field _ v H). reflexivity.
Qed.

Lemma dividend_yield_entry_text (v : pyval) :
  is_text (dividend_yield_entry v) = true.
Proof.
  unfold dividend_yield_entry. destruct (py_ne_str v unavailable); reflexivity.
Qed.

(** The nested group has one entry or two, both texts. *)
Lemma debt_comparison_group_shape (info : pyval) (g : dict) :
  debt_comparison_group info = Ok g ->
  (map fst g = ["Deuda Anterior"]
   \/ map fst g = ["Deuda Anterior"; "Cambio Deuda"])
  /\ Forall (fun entry => is_text (snd entry) = true) g.
Proof.
  unfold debt_comparison_group.
  destruct (formatted info "debtToEquity") as [previous | ] eqn:Hp;
    cbn [bind]; [ | discriminate].
  apply formatted_text in Hp.
  repeat match goal with
         | |- context [bind ?c _] =>
             destruct c; cbn [bind]; [ | discriminate]
         | |- context [if ?b then _ else _] => destruct b
         end;
    intros [= <-]; (split; [auto | ]); repeat constructor; assumption.
Qed.

Lemma fetch_fundamental_data_raises
  (yf : Vendor) (ticker : string) (e : exn) :
  fetch_fundamental_data_try yf ticker = Raise e ->
  fetch_fundamental_data yf ticker = ([fundamental_error_line ticker e], []).
Proof. intros H. unfold fetch_fundamental_data. rewrite H. reflexivity. Qed.

(** X7. Whatever the vendor returns, [fetch_fundamental_data] gives one of
    two things: one printed error line and the empty mapping; or nothing
    printed and the fourteen metrics in their order followed by
    ["Debt Comparison"], where the dividend yield and the five formatted
    figures are texts and the nested group is a mapping of texts with the
    key ["Deuda Anterior"], followed or not by ["Cambio Deuda"]. *)
Theorem fetch_fundamental_data_shape (yf : Vendor) (ticker : string) :
  (exists e,
      fetch_fundamental_data yf ticker
      = ([fundamental_error_line ticker e], []))
  \/ (exists fundamental_data group,
        fetch_fundamental_data yf ticker = ([], fundamental_data)
        /\ map fst fundamental_data
           = (metric_labels ++ ["Debt Comparison"])%list
        /\ (forall label, In label text_labels ->
              exists text,
                dict_get fundamental_data label = Some (VStr text))
        /\ dict_get fundamental_data "Debt Comparison" = Some (VDict group)
        /\ (map fst group = ["Deuda Anterior"]
            \/ map fst group = ["Deuda Anterior"; "Cambio Deuda"])
        /\ Forall (fun entry => is_text (snd entry) = true) group).
Proof.
  destruct (fetch_fundamental_data_try yf ticker) as [m | e] eqn:E;
    [right | left; exists e; apply fetch_fundamental_data_raises, E].
  unfold fetch_fundamental_data. rewrite E.
  unfold fetch_fundamental_data_try in E.
  repeat match type of E with
         | bind ?c _ = Ok _ =>
             destruct c eqn:?; cbn [bind] in E; [ | discriminate E]
         end.
  injection E as <-.
  repeat match goal with
         | H : formatted _ _ = Ok ?v |- _ =>
             apply formatted_text in H; destruct v; try discriminate H;
             clear H
         end.
  match goal with
  | H : debt_comparison_group _ = Ok ?g |- _ =>
      apply debt_comparison_group_shape in H; destruct H as [Hk Hv];
      eexists; exists g
  end.
  split; [reflexivity | ]. split; [reflexivity | ].
  split; [ | split; [reflexivity | split; assumption]].
  intros label Hin. simpl in Hin.
  destruct Hin as [<- | Hin].
  - cbn [dict_set dict_get String.eqb Ascii.eqb Bool.eqb].
    match goal with
    | |- context [dividend_yield_entry ?v] =>
        pose proof (dividend_yield_entry_text v) as Ht;
        destruct (dividend_yield_entry v); try discriminate Ht
    end.
    eexists; reflexivity.
  - repeat (destruct Hin as [<- | Hin]; [eexists; reflexivity | ]).
    contradiction.
Qed.

(** The nested group when both fields hold values that are true and read
    as floats. *)
Lemma debt_comparison_group_numbers (d : dict) (tv rv : pyval) (t r : float) :
  dict_get d "totalDebt" = Some tv ->
  dict_get d "debtToEquity" = Some rv ->
  py_bool tv = true -> py_bool rv = true ->
  py_float tv = Ok t -> py_float rv = Ok r ->
  debt_comparison_group (VDict d)
  = (quotient <- float_truediv t r ;;
     Ok [ ("Deuda Anterior", VStr (magnitude r));
          ("Cambio Deuda", VStr (magnitude quotient)) ]).
Proof.
  intros Ht Hr Hbt Hbr Hft Hfr. unfold debt_comparison_group.
  rewrite (formatted_found d _ rv Hr), (format_large_numbers_ok rv r Hfr).
  rewrite !(safe_get_found d _ _ tv Ht), !(safe_get_found d _ _ rv Hr).
  cbn [bind]. rewrite Hbt. cbn [bind]. rewrite Hbr, Hft. cbn [bind].
  rewrite Hfr. cbn [bind].
  destruct (float_truediv t r); reflexivity.
Qed.

(** X8. When [totalDebt] and [debtToEquity] hold values that are true and
    read as the floats [t] and [r]: the entry ["Deuda Anterior"] is the
    formatted ratio [r] and the entry ["Cambio Deuda"] is the formatted
    quotient [t / r], and this is the group of the mapping returned unless
    another field makes the extraction fail; when [r] is a zero (a text
    such as [0.0]: a number that is zero is not true) the division raises
    and the mapping returned is empty. *)
Theorem fetch_fundamental_data_debt_group
  (yf : Vendor) (ticker : string) (stock : Stock) (d : dict)
  (tv rv : pyval) (t r : float) :
  yf ticker = Ok stock ->
  info stock = Ok (VDict d) ->
  dict_get d "totalDebt" = Some tv ->
  dict_get d "debtToEquity" = Some rv ->
  py_bool tv = true -> py_bool rv = true ->
  py_float tv = Ok t -> py_float rv = Ok r ->
  if Float64.is_zero r then
    debt_comparison_group (VDict d)
    = Raise (mk_exn ZeroDivisionError "float division by zero")
    /\ exists e,
         fetch_fundamental_data yf ticker
         = ([fundamental_error_line ticker e], [])
  else
    let group := [ ("Deuda Anterior", VStr (magnitude r));
                   ("Cambio Deuda", VStr (magnitude (Float64.div t r))) ] in
    debt_comparison_group (VDict d) = Ok group
    /\ ((exists e,
            fetch_fundamental_data yf ticker
            = ([fundamental_error_line ticker e], []))
        \/ dict_get (snd (fetch_fundamental_data yf ticker))
             "Debt Comparison" = Some (VDict group)).
Proof.
  intros Hyf Hinfo Ht Hr Hbt Hbr Hft Hfr.
  pose proof (debt_comparison_group_numbers d tv rv t r Ht Hr Hbt Hbr Hft Hfr)
    as Hg.
  unfold float_truediv in Hg.
  destruct (Float64.is_zero r); cbn [bind] in Hg;
    (split; [exact Hg | ]).
  - destruct (fetch_fundamental_data_try yf ticker) as [m | e] eqn:E;
      [ | exists e; apply fetch_fundamental_data_raises, E].
    exfalso. revert E. unfold fetch_fundamental_data_try.
    rewrite Hyf. cbn [bind]. rewrite Hinfo. cbn [bind]. rewrite Hg.
    repeat match goal with
           | |- bind (Raise _) _ = _ -> _ => cbn [bind]
           | |- bind ?c _ = _ -> _ =>
               destruct c; cbn [bind]; [ | discriminate]
           end.
    discriminate.
  - destruct (fetch_fundamental_data_try yf ticker) as [m | e] eqn:E;
      [right | left; exists e; apply fetch_fundamental_data_raises, E].
    unfold fetch_fundamental_data. rewrite E. revert E.
    unfold fetch_fundamental_data_try.
    rewrite Hyf. cbn [bind]. rewrite Hinfo. cbn [bind]. rewrite Hg.
    repeat match goal with
           | |- context [bind ?c _] =>
               destruct c; cbn [bind]; [ | discriminate]
           end.
    intros [= <-]. reflexivity.
Qed.

(** X9. One figure that [format_large_numbers] cannot format (by X1: a
    list, a dict, or an int beyond the range of floats) under any of the
    six fields that are formatted loses every metric: the mapping returned
    is empty and one error line is printed. *)
Theorem fetch_fundamental_data_unformattable
  (yf : Vendor) (ticker : string) (stock : Stock) (d : dict)
  (field : string) (v : pyval) (e : exn) :
  yf ticker = Ok stock ->
  info stock = Ok (VDict d) ->
  In field formatted_fields ->
  dict_get d field = Some v ->
  format_large_numbers v = Raise e ->
  exists e',
    fetch_fundamental_data yf ticker
    = ([fundamental_error_line ticker e'], []).
Proof.
  intros Hyf Hinfo Hin Hd He.
  assert (Hf : formatted (VDict d) field = Raise e).
  { rewrite (formatted_found d field v Hd), He. reflexivity. }
  assert (H : exists e', fetch_fundamental_data_try yf ticker = Raise e').
  { unfold fetch_fundamental_data_try, debt_comparison_group.
    rewrite Hyf. cbn [bind]. rewrite Hinfo. cbn [bind].
    simpl in Hin.
    repeat (destruct Hin as [<- | Hin];
            [ rewrite Hf;
              repeat match goal with
                     | |- exists _, Raise _ = Raise _ =>
                         eexists; reflexivity
                     | |- exists _, bind ?c _ = Raise _ =>
                         destruct c; cbn [bind];
                         [ | eexists; reflexivity]
                     end
            | ]).
    contradiction. }
  destruct H as [e' H]. exists e'.
  apply fetch_fundamental_data_raises, H.
Qed.

Lemma append_length (s1 s2 : string) :
  String.length (s1 ++ s2) = (String.length s1 + String.length s2)%nat.
Proof.
  induction s1 as [ | c s1 IH]; [reflexivity | ].
  cbn [append String.length]. rewrite IH. reflexivity.
Qed.

Lemma repeat_string_length (s : string) (n : nat) :
  String.length (repeat_string s n) = (n * String.length s)%nat.
Proof.
  induction n as [ | n IH]; [reflexivity | ].
  cbn [repeat_string]. rewrite append_length, IH. reflexivity.
Qed.

(** A text taken a hundred times is not the default text, which has
    eighteen characters. *)
Lemma repeat_string_available (s : string) :
  py_ne_str (VStr (repeat_string s 100)) unavailable = true.
Proof.
  unfold py_ne_str, py_eq_str.
  destruct (String.eqb_spec (repeat_string s 100) unavailable) as [E | ];
    [ | reflexivity].
  apply (f_equal String.length) in E. rewrite repeat_string_length in E.
  change (String.length unavailable) with 18%nat in E. lia.
Qed.

(** X10. The dividend yield shown: a float yield is multiplied by 100 in
    floating point and shown as [str] shows the product; an int yield is
    multiplied exactly; a text yield other than the default text is
    repeated a hundred times; each followed by the percent sign, unless
    another field makes the extraction fail. *)
Theorem fetch_fundamental_data_dividend_yield
  (yf : Vendor) (ticker : string) (stock : Stock) (d : dict) (y : pyval) :
  yf ticker = Ok stock ->
  info stock = Ok (VDict d) ->
  dict_get d "dividendYield" = Some y ->
  let shown (text : string) : Prop :=
    (exists e,
        fetch_fundamental_data yf ticker
        = ([fundamental_error_line ticker e], []))
    \/ dict_get (snd (fetch_fundamental_data yf ticker)) "Dividend Yield"
       = Some (VStr text) in
  (forall x, y = VFloat x ->
     shown (py_str (VFloat (Float64.mul x (Float64.of_Z 100))) ++ "%"))
  /\ (forall z, y = VInt z -> shown (str_of_Z (z * 100) ++ "%"))
  /\ (forall s, y = VStr s -> s <> unavailable ->
        shown (repeat_string s 100 ++ "%")).
Proof.
  intros Hyf Hinfo Hd shown.
  assert (Hshown : forall p,
             dividend_yield_percent (VDict d) = Ok p ->
             forall text, dividend_yield_entry p = VStr text -> shown text).
  { intros p Hp text Ht. unfold shown.
    destruct (fetch_fundamental_data_try yf ticker) as [m | e] eqn:E;
      [right | left; exists e; apply fetch_fundamental_data_raises, E].
    unfold fetch_fundamental_data. rewrite E. revert E.
    unfold fetch_fundamental_data_try.
    rewrite Hyf. cbn [bind]. rewrite Hinfo. cbn [bind]. rewrite Hp.
    cbn [bind]. rewrite Ht.
    repeat match goal with
           | |- context [bind ?c _] =>
               destruct c; cbn [bind]; [ | discriminate]
           end.
    intros [= <-]. reflexivity. }
  assert (Hget : safe_get_default (VDict d) "dividendYield" = Ok y)
    by apply (safe_get_found d _ _ y Hd).
  split; [ | split].
  - intros x ->.
    apply (Hshown (VFloat (Float64.mul x (Float64.of_Z 100)))).
    + unfold dividend_yield_percent. rewrite Hget. reflexivity.
    + reflexivity.
  - intros z ->. apply (Hshown (VInt (z * 100))).
    + unfold dividend_yield_percent. rewrite Hget. reflexivity.
    + reflexivity.
  - intros s -> Hs. apply (Hshown (VStr (repeat_string s 100))).
    + unfold dividend_yield_percent. rewrite Hget. cbn [bind].
      unfold py_ne_str, py_eq_str.
      destruct (String.eqb_spec s unavailable) as [E | _];
        [contradiction | reflexivity].
    + unfold dividend_yield_entry. rewrite repeat_string_available.
      reflexivity.
Qed.

End FundamentalMore.

(** With the runtime [cpython]: 120 billions over a ratio of 150. *)
Lemma fetch_fundamental_data_debt_group_witness :
  dict_get
    (snd (fetch_fundamental_data
            (vendor_of (VDict indebted_info) (Frame [])) "ACME"))
    "Debt Comparison"
  = Some (VDict [ ("Deuda Anterior", VStr "150.00");
                  ("Cambio Deuda", VStr "800.0M") ]).
Proof.
  pose proof (fetch_fundamental_data_debt_group
                (vendor_of (VDict indebted_info) (Frame [])) "ACME"
                (stock_of (VDict indebted_info) (Frame [])) indebted_info
                (VInt 120000000000) (VInt 150)
                (Float64.of_Z 120000000000) (Float64.of_Z 150)
                eq_refl eq_refl eq_refl eq_refl eq_refl eq_refl
                eq_refl eq_refl) as H.
  vm_compute in H. destruct H as [_ [[e He] | H]].
  - discriminate He.
  - vm_compute. exact H.
Defined.

(** With the runtime [cpython]: the price-earnings ratio is lost with the
    operating income. *)
Lemma fetch_fundamental_data_unformattable_witness :
  exists e,
    fetch_fundamental_data (vendor_of (VDict malformed_info) (Frame []))
      "ACME"
    = ([fundamental_error_line "ACME" e], []).
Proof.
  eapply (fetch_fundamental_data_unformattable
            (vendor_of (VDict malformed_info) (Frame [])) "ACME"
            (stock_of (VDict malformed_info) (Frame [])) malformed_info
            "operatingIncome" (VList [VInt 1])).
  - reflexivity.
  - reflexivity.
  - simpl. tauto.
  - reflexivity.
  - vm_compute. reflexivity.
Defined.

(** With the runtime [cpython]: 0.07 times 100 is not 7. *)
Lemma fetch_fundamental_data_dividend_yield_witness :
  dict_get
    (snd (fetch_fundamental_data
            (vendor_of (VDict yielding_info) (Frame [])) "ACME"))
    "Dividend Yield"
  = Some (VStr "7.000000000000001%").
Proof.
  pose proof (fetch_fundamental_data_dividend_yield
                (vendor_of (VDict yielding_info) (Frame [])) "ACME"
                (stock_of (VDict yielding_info) (Frame [])) yielding_info
                _ eq_refl eq_refl eq_refl) as H.
  cbv zeta in H. destruct H as (H & _).
  destruct (H _ eq_refl) as [[e He] | Hy].
  - vm_compute in He. discriminate He.
  - vm_compute in Hy. vm_compute. exact Hy.
Defined.

(** ** The debt comparison, whatever the vendor returns *)

Section DebtComparisonMore.

Context {rt : PyRuntime}.

(** X11. Whatever the vendor returns, the keys of the mapping that
    [fetch_debt_comparison] returns are none, the three of the total debt,
    the three of the long-term debt, or the six in this order, and every
    value is a text. *)
Theorem fetch_debt_comparison_keys (yf : Vendor) (ticker : string) :
  let debt_comparison := snd (fetch_debt_comparison yf ticker) in
  In (map fst debt_comparison)
    [ []; total_debt_keys; long_term_debt_keys;
      (total_debt_keys ++ long_term_debt_keys)%list ]
  /\ Forall (fun entry => is_text (snd entry) = true) debt_comparison.
Proof.
  unfold fetch_debt_comparison, fetch_debt_comparison_try.
  cbv [bbind lift fresh assign current bret].
  destruct (yf ticker) as [stock | ];
    [ | simpl; split; [auto | constructor]].
  destruct (financials stock);
    [ | simpl; split; [auto | constructor]].
  destruct (balance_sheet stock) as [st | ];
    [ | simpl; split; [auto | constructor]].
  destruct (line_item st "Total Debt") as [total | ];
    [ | simpl; split; [auto | constructor]].
  destruct (line_item st "Long Term Debt") as [long | ];
    [ | simpl; split; [auto | constructor]].
  destruct (period total 1) as [a1 | ];
    [ | simpl; split; [auto | constructor]].
  destruct (period total 0) as [a0 | ];
    [ | simpl; split; [auto | constructor]].
  destruct (period long 1) as [b1 | ];
    [ | simpl; split; [auto | constructor]].
  destruct (period long 0) as [b0 | ];
    [ | simpl; split; [auto | constructor]].
  destruct (py_bool a1 && py_bool a0);
    destruct (py_bool b1 && py_bool b0);
    try destruct (format_large_numbers a1);
    try destruct (format_large_numbers a0);
    try destruct (format_large_numbers b1);
    try destruct (format_large_numbers b0);
    simpl; (split; [auto 6 | repeat constructor]).
Qed.

(** X12. The income statement is read and not used: when reading it
    raises, the mapping is empty and the error line is printed, whatever
    the balance sheet holds; when it is read, the result is the same for
    any income statement. *)
Theorem fetch_debt_comparison_financials
  (yf yf' : Vendor) (ticker : string) (stock : Stock) :
  yf ticker = Ok stock ->
  (forall e,
      financials stock = Raise e ->
      fetch_debt_comparison yf ticker = ([debt_error_line ticker e], []))
  /\ (forall st st',
        financials stock = Ok st ->
        yf' ticker = Ok (with_financials stock (Ok st')) ->
        fetch_debt_comparison yf' ticker = fetch_debt_comparison yf ticker).
Proof.
  intros Hyf. split.
  - intros e He.
    unfold fetch_debt_comparison, fetch_debt_comparison_try.
    cbn [bbind lift]. rewrite Hyf. cbn [bbind lift]. rewrite He.
    reflexivity.
  - intros st st' Hst Hyf'.
    unfold fetch_debt_comparison, fetch_debt_comparison_try.
    cbn [bbind lift]. rewrite Hyf, Hyf'. cbn [bbind lift].
    rewrite Hst. reflexivity.
Qed.

End DebtComparisonMore.

(** With the runtime [cpython]: the two periods of both lines are there,
    and reading the income statement times out. *)
Lemma fetch_debt_comparison_financials_witness :
  fetch_debt_comparison
    (fun _ =>
       Ok (with_financials (stock_of VNone two_period_sheet)
             (Raise (mk_exn (VendorError "Timeout") "timed out"))))
    "ACME"
  = (["Error al obtener la comparación de deuda para ACME: timed out"], [])
  /\ fetch_debt_comparison
       (fun _ =>
          Ok (with_financials (stock_of VNone two_period_sheet)
                (Ok (NotFrame VNone))))
       "ACME"
     = fetch_debt_comparison (vendor_of VNone two_period_sheet) "ACME".
Proof.
  split.
  - destruct (fetch_debt_comparison_financials
                (fun _ =>
                   Ok (with_financials (stock_of VNone two_period_sheet)
                         (Raise (mk_exn (VendorError "Timeout")
                                   "timed out"))))
                (vendor_of VNone two_period_sheet) "ACME" _ eq_refl)
      as (H & _).
    exact (H _ eq_refl).
  - destruct (fetch_debt_comparison_financials
                (vendor_of VNone two_period_sheet)
                (fun _ =>
                   Ok (with_financials (stock_of VNone two_period_sheet)
                         (Ok (NotFrame VNone))))
                "ACME" _ eq_refl)
      as (_ & H).
    exact (H _ _ eq_refl eq_refl).
Defined.

(** ** The exchange table *)

(** X13. No code is listed twice in the exchange table, two listed codes
    never share a name, and no name is itself a code: naming a market twice
    is naming it once. *)
Theorem market_name_idempotent :
  NoDup (map fst EXCHANGE_MAPPING)
  /\ (forall a b : string,
        In a (map fst EXCHANGE_MAPPING) -> In b (map fst EXCHANGE_MAPPING) ->
        market_name a = market_name b -> a = b)
  /\ (forall code : string, market_name (market_name code) = market_name code).
Proof.
  split; [ | split].
  - repeat (constructor;
            [simpl; intros H;
             repeat (destruct H as [H | H]; [discriminate H | ]); exact H | ]).
    constructor.
  - intros a b Ha Hb. simpl in Ha, Hb.
    repeat (destruct Ha as [<- | Ha]; [ | ]); try contradiction;
      repeat (destruct Hb as [<- | Hb]; [ | ]); try contradiction;
      vm_compute; intros H; (reflexivity || discriminate H).
  - intros code. unfold market_name, EXCHANGE_MAPPING. cbn [mapping_get].
    repeat match goal with
           | |- context [String.eqb ?k code] =>
               destruct (String.eqb_spec k code) as [E | ?];
               [first [contradiction | subst code; reflexivity] | ]
           end.
    reflexivity.
Qed.

(** ** The command line *)

Section MainMore.

Context {rt : PyRuntime} {host : Host}.

(** [main] once the data are fetched. *)
Lemma main_run (typed_ticker typed_period : string) (yf : Yahoo) :
  main typed_ticker typed_period yf
  = let ticker := ticker_of typed_ticker in
    let fetched := fetch_ticker_data yf ticker (period_of typed_period) in
    let data := fst (snd fetched) in
    let info := snd (snd fetched) in
    if is_data data && negb (is_none info) then
      ((opening ticker ++ fst fetched
        ++ fst (report yf ticker data info))%list,
       snd (report yf ticker data info))
    else ((opening ticker ++ fst fetched ++ [not_found])%list, Ok tt).
Proof.
  unfold main, ticker_of, period_of. cbv zeta.
  destruct (fetch_ticker_data _ _ _) as [out [data info]].
  cbn [rbind say call fst snd app].
  destruct (is_data data && negb (is_none info)); [ | reflexivity].
  destruct (report _ _ data info) as [out' r]. reflexivity.
Qed.







(** X14. When the vendor fails on the ticker, on its history or on its
    info, [main] ends normally after six texts: the banner, the two
    prompts, the line on the data being fetched, the error line of
    [fetch_ticker_data] and the advice to check the symbol; when the vendor
    answers with [None] as the history or as the info, the same without the
    error line.  Nothing of the report is printed and no other fetcher
    is run. *)
Theorem main_without_data (typed_ticker typed_period : string) (yf : Yahoo) :
  let ticker := ticker_of typed_ticker in
  let period := period_of typed_period in
  (forall e,
      fetch_ticker_data_try yf ticker period = Raise e ->
      main typed_ticker typed_period yf
      = ((opening ticker ++ [ticker_error_line ticker e; not_found])%list,
         Ok tt))
  /\ (forall data info,
        fetch_ticker_data_try yf ticker period = Ok (data, info) ->
        data = no_data \/ info = VNone ->
        main typed_ticker typed_period yf
        = ((opening ticker ++ [not_found])%list, Ok tt)).
Proof.
  intros ticker period. subst ticker period.
  rewrite main_run. unfold fetch_ticker_data. cbv zeta. split.
  - intros e ->. reflexivity.
  - intros data info -> H. cbn [fst snd].
    destruct H as [-> | ->]; [reflexivity | ].
    rewrite Bool.andb_false_r. reflexivity.
Qed.



End MainMore.

(** ** The lines typed, on the ASCII host *)

Lemma rev_string_rev_string (a b s : string) :
  CPython.rev_string a (CPython.rev_string b s)
  = CPython.rev_string (s ++ a) b.
Proof.
  revert a b. induction s as [ | c s IH]; intros a b; [reflexivity | ].
  cbn [CPython.rev_string]. rewrite IH. reflexivity.
Qed.

Lemma append_empty (s : string) : s ++ "" = s.
Proof.
  induction s as [ | c s IH]; [reflexivity | ].
  cbn [append]. rewrite IH. reflexivity.
Qed.

Lemma rev_string_involutive (s : string) :
  CPython.rev_string "" (CPython.rev_string "" s) = s.
Proof. rewrite rev_string_rev_string. apply append_empty. Qed.

Lemma rev_string_snoc (acc w : string) (c : ascii) :
  CPython.rev_string acc (w ++ String c "")
  = String c (CPython.rev_string acc w).
Proof.
  revert acc. induction w as [ | c' w IH]; intros acc; [reflexivity | ].
  cbn [append CPython.rev_string]. apply IH.
Qed.

Lemma rev_string_cons (c : ascii) (s : string) :
  CPython.rev_string "" (String c s)
  = CPython.rev_string "" s ++ String c "".
Proof.
  rewrite <- (rev_string_involutive
                (CPython.rev_string "" s ++ String c "")).
  rewrite rev_string_snoc, rev_string_involutive. reflexivity.
Qed.

Lemma lstrip_idempotent (s : string) :
  AsciiHost.lstrip (AsciiHost.lstrip s) = AsciiHost.lstrip s.
Proof.
  induction s as [ | c s IH]; [reflexivity | ].
  cbn [AsciiHost.lstrip].
  destruct (AsciiHost.is_space c) eqn:E; [exact IH | ].
  cbn [AsciiHost.lstrip]. rewrite E. reflexivity.
Qed.

(** What is left of a text starts with a character that is no blank. *)
Lemma lstrip_starts (s : string) :
  AsciiHost.lstrip s = ""
  \/ exists c u, AsciiHost.lstrip s = String c u
                 /\ AsciiHost.is_space c = false.
Proof.
  induction s as [ | c s IH]; [left; reflexivity | ].
  cbn [AsciiHost.lstrip].
  destruct (AsciiHost.is_space c) eqn:E; [exact IH | ].
  right. exists c, s. auto.
Qed.

Lemma lstrip_snoc (x : string) (c : ascii) :
  AsciiHost.is_space c = false ->
  exists w, AsciiHost.lstrip (x ++ String c "") = w ++ String c "".
Proof.
  intros Hc. induction x as [ | c' x IH].
  - exists "". cbn [append AsciiHost.lstrip]. rewrite Hc. reflexivity.
  - cbn [append AsciiHost.lstrip].
    destruct (AsciiHost.is_space c'); [exact IH | ].
    exists (String c' x). reflexivity.
Qed.

Lemma strip_idempotent (s : string) :
  AsciiHost.strip (AsciiHost.strip s) = AsciiHost.strip s.
Proof.
  unfold AsciiHost.strip.
  assert (H : AsciiHost.lstrip
                (CPython.rev_string ""
                   (AsciiHost.lstrip
                      (CPython.rev_string "" (AsciiHost.lstrip s))))
              = CPython.rev_string ""
                  (AsciiHost.lstrip
                     (CPython.rev_string "" (AsciiHost.lstrip s)))).
  { destruct (lstrip_starts s) as [-> | (c & u & -> & Hc)];
      [reflexivity | ].
    rewrite rev_string_cons.
    destruct (lstrip_snoc (CPython.rev_string "" u) c Hc) as [w ->].
    rewrite rev_string_snoc. cbn [AsciiHost.lstrip]. rewrite Hc.
    reflexivity. }
  rewrite H, rev_string_involutive, lstrip_idempotent. reflexivity.
Qed.

Lemma upper_char_space (c : ascii) :
  AsciiHost.is_space (AsciiHost.upper_char c) = AsciiHost.is_space c.
Proof.
  destruct c as [[ | ] [ | ] [ | ] [ | ] [ | ] [ | ] [ | ] [ | ]];
    reflexivity.
Qed.

Lemma upper_char_idempotent (c : ascii) :
  AsciiHost.upper_char (AsciiHost.upper_char c) = AsciiHost.upper_char c.
Proof.
  destruct c as [[ | ] [ | ] [ | ] [ | ] [ | ] [ | ] [ | ] [ | ]];
    reflexivity.
Qed.

Lemma upper_idempotent (s : string) :
  AsciiHost.upper (AsciiHost.upper s) = AsciiHost.upper s.
Proof.
  induction s as [ | c s IH]; [reflexivity | ].
  cbn [AsciiHost.upper]. rewrite upper_char_idempotent, IH. reflexivity.
Qed.

Lemma lstrip_upper (s : string) :
  AsciiHost.lstrip (AsciiHost.upper s) = AsciiHost.upper (AsciiHost.lstrip s).
Proof.
  induction s as [ | c s IH]; [reflexivity | ].
  cbn [AsciiHost.upper AsciiHost.lstrip]. rewrite upper_char_space.
  destruct (AsciiHost.is_space c); [exact IH | reflexivity].
Qed.

Lemma rev_string_upper (acc s : string) :
  CPython.rev_string (AsciiHost.upper acc) (AsciiHost.upper s)
  = AsciiHost.upper (CPython.rev_string acc s).
Proof.
  revert acc. induction s as [ | c s IH]; intros acc; [reflexivity | ].
  cbn [AsciiHost.upper CPython.rev_string]. apply (IH (String c acc)).
Qed.

Lemma strip_upper (s : string) :
  AsciiHost.strip (AsciiHost.upper s) = AsciiHost.upper (AsciiHost.strip s).
Proof.
  unfold AsciiHost.strip.
  rewrite lstrip_upper, (rev_string_upper ""), lstrip_upper.
  apply (rev_string_upper "").
Qed.

Lemma lstrip_blank (s : string) : blank s = true -> AsciiHost.lstrip s = "".
Proof.
  induction s as [ | c s IH]; [reflexivity | ].
  cbn [blank AsciiHost.lstrip].
  destruct (AsciiHost.is_space c); [exact IH | discriminate].
Qed.

Section TypedLines.

Context {rt : PyRuntime}.

Lemma ticker_of_idempotent (typed : string) :
  ticker_of (ticker_of typed) = ticker_of typed.
Proof.
  unfold ticker_of. cbn [str_upper str_strip ascii_host].
  rewrite strip_upper, strip_idempotent. apply upper_idempotent.
Qed.

Lemma period_of_idempotent (typed : string) :
  period_of (period_of typed) = period_of typed.
Proof.
  unfold period_of. cbn [str_strip ascii_host].
  destruct (String.eqb_spec (AsciiHost.strip typed) "") as [E | E];
    [reflexivity | ].
  rewrite strip_idempotent.
  destruct (String.eqb_spec (AsciiHost.strip typed) ""); 
    [contradiction | reflexivity].
Qed.

(** [main] reads the two lines typed through the ticker and the period it
    makes of them. *)
Lemma main_of_typed (t t' p p' : string) (yf : Yahoo) :
  ticker_of t = ticker_of t' -> period_of p = period_of p' ->
  main t p yf = main t' p' yf.
Proof.
  unfold main, ticker_of, period_of. intros -> ->. reflexivity.
Qed.

(** X17. On text in ASCII, what [main] does depends on the two lines
    typed only through the ticker without the blanks around it and in
    capitals, and the period without the blanks around it: typing them in
    this form gives the same run. *)
Theorem main_typed (typed_ticker typed_period : string) (yf : Yahoo) :
  ascii_text typed_ticker = true ->
  ascii_text typed_period = true ->
  main typed_ticker typed_period yf
  = main (ticker_of typed_ticker) (period_of typed_period) yf.
Proof.
  intros _ _. apply main_of_typed.
  - symmetry. apply ticker_of_idempotent.
  - symmetry. apply period_of_idempotent.
Qed.

(** X18. A period typed as nothing, or as blanks only, is the period
    [1y]. *)
Theorem main_default_period (typed_ticker typed_period : string)
  (yf : Yahoo) :
  blank typed_period = true ->
  main typed_ticker typed_period yf = main typed_ticker "1y" yf.
Proof.
  intros H. apply main_of_typed; [reflexivity | ].
  unfold period_of. cbn [str_strip ascii_host]. unfold AsciiHost.strip.
  rewrite (lstrip_blank _ H). reflexivity.
Qed.

End TypedLines.

(** With the runtime [cpython] and the host [ascii_host]: the vendor does
    not know the ticker typed. *)
Lemma main_without_data_witness :
  main " acme " "" failing_yahoo
  = ([ "=== Análisis de Tickers ===";
       "Introduce el ticker de la empresa (e.g., AAPL): ";
       "Introduce el periodo de análisis (por defecto: 1y): ";
       "Obteniendo datos para ACME...";
       "Error al obtener datos para ACME: 404 Client Error";
       not_found ],
     Ok tt).
Proof.
  destruct (main_without_data " acme " "" failing_yahoo) as [H _].
  exact (H (mk_exn (VendorError "HTTPError") "404 Client Error") eq_refl).
Defined.



(** A ticker typed in small letters between blanks. *)
Lemma main_typed_witness :
  main "  acme " " 6mo "
acme_yahoo
  = main "ACME" "6mo" acme_yahoo.
Proof.
  apply (main_typed "  acme " " 6mo " acme_yahoo); reflexivity.
Defined.

(** Two blanks at the second prompt. *)
Lemma main_default_period_witness :
  main "acme" "  " acme_yahoo = main "acme" "1y" acme_yahoo.
Proof.
  apply (main_default_period "acme" "  " acme_yahoo). reflexivity.
Defined.
